(** * Waste hotspot ticket extraction: a model of [main.py] and [app.py]

    The two entry points of the repository (the command line script
    [main.py] and the Streamlit page [app.py]) send an image to a hosted
    model, let the model call the [waste_report] tool, and pick the ticket
    that the tool left in the module-level list [COLLECTED_TICKETS].

    Modelling choices.
    - Python values are dynamically typed.  An [atom] is a value without
      identity ([None], a boolean, a number, a string); a [value] is an
      atom or a reference to a dict object.
    - A Python [dict] keeps its insertion order, which [json.dumps] shows;
      a dict is an association list with unique keys, updated in place.
    - Ticket dicts are shared objects: the list [COLLECTED_TICKETS] and the
      dict returned by [run_model] refer to the same object, and
      [run_model] mutates it.  Dict objects live in a [heap] (a list,
      addressed by index) and are referred to by [VRef].
    - Floating point numbers are abstracted by rationals ([Q]).
    - The model library ([strands.Agent]) is an external collaborator.  What
      the repository observes of one agent call is a sequence of tool
      invocations, each answered by the tool's return value, ended by a
      normal return or by an exception: a [behaviour].  An invocation is a
      run of the body of [waste_report]: the library binds the tool input
      to the parameters, and converts it to their annotated types, before
      the body runs, and a tool input that it turns down never gets there.
      The results of
      [uuid.uuid4()] and [datetime.now(IST)] drawn inside a tool
      invocation, and the two readings of [time.time()], are inputs. *)

From Stdlib Require Import QArith.
From stdpp Require Import base numbers strings option list_monad list.

(** ** Python values, dicts and the heap of dict objects *)

Definition loc := nat.

Inductive atom :=
| ANone
| ABool (b : bool)
| ANum (q : Q)
| AStr (s : string).

Inductive value :=
| VAtom (a : atom)
| VRef (l : loc).

Coercion VAtom : atom >-> value.

(** A dict: keys in insertion order, each key at most once. *)
Abbreviation dict := (list (string * value)).

Fixpoint dict_get (k : string) (d : dict) : option value :=
  match d with
  | [] => None
  | (k', v) :: d' => if decide (k = k') then Some v else dict_get k d'
  end.

(** [d[k] = v]: replaces the value at an existing key (the key keeps its
    position), appends the key otherwise. *)
Fixpoint dict_set (k : string) (v : value) (d : dict) : dict :=
  match d with
  | [] => [(k, v)]
  | (k', v') :: d' =>
      if decide (k = k') then (k', v) :: d' else (k', v') :: dict_set k v d'
  end.

Definition dict_keys (d : dict) : list string := d.*1.

(** The heap: the dict objects allocated so far, addressed by index. *)
Abbreviation heap := (list dict).

(** ** Exceptions and results *)

Record exn := { exn_class : string; exn_message : string }.

Definition RuntimeError (msg : string) : exn :=
  {| exn_class := "RuntimeError"; exn_message := msg |}.
Definition FileNotFoundError (msg : string) : exn :=
  {| exn_class := "FileNotFoundError"; exn_message := msg |}.
Definition ValueError (msg : string) : exn :=
  {| exn_class := "ValueError"; exn_message := msg |}.

Inductive result (A : Type) :=
| Return (a : A)
| Raise (e : exn).
Arguments Return {A} a.
Arguments Raise {A} e.

(** ** JSON documents and [json.dumps]

    The text layout ([indent=2]) is not modelled: a document is its tree.
    A reference is serialised as the object it refers to; the fuel bounds
    the nesting depth, and running out of it is Python's circular
    reference error. *)

#[warnings="-register-all"]
Inductive json :=
| JNull
| JBool (b : bool)
| JNum (q : Q)
| JStr (s : string)
| JObj (fields : list (string * json)).

Definition dumps_atom (a : atom) : json :=
  match a with
  | ANone => JNull
  | ABool b => JBool b
  | ANum q => JNum q
  | AStr s => JStr s
  end.

Fixpoint dumps_value (fuel : nat) (h : heap) (v : value) : option json :=
  match v with
  | VAtom a => Some (dumps_atom a)
  | VRef l =>
      match fuel with
      | O => None
      | S fuel' =>
          d ← h !! l;
          JObj <$> mapM (λ kv, (λ j, (kv.1, j)) <$> dumps_value fuel' h kv.2) d
      end
  end.

(** [json.dumps] of a value, and of a dict that is not itself on the heap
    (a dict display passed straight to [json.dumps]). *)
Definition json_dumps_value (h : heap) (v : value) : option json :=
  dumps_value (S (length h)) h v.

Definition json_dumps (h : heap) (d : dict) : option json :=
  JObj <$> mapM (λ kv, (λ j, (kv.1, j)) <$> json_dumps_value h kv.2) d.

(** ** Program state

    One Python process: the dict objects, the module global
    [COLLECTED_TICKETS] and the contents of the output file
    ([benchmark.json]; [None] when the file does not exist).  The objects
    are the ticket dicts, the ones that are shared and mutated; the other
    dicts that the program builds ([{"status": ...}], [{"ticket": ...}],
    [{"error": ...}]) are used once where they are built and are kept as
    values. *)

Record state := {
  objects : heap;
  COLLECTED_TICKETS : list loc;
  output_file : option json;
}.

Definition initial_state : state :=
  {| objects := []; COLLECTED_TICKETS := []; output_file := None |}.

(** [COLLECTED_TICKETS.clear()] *)
Definition tickets_clear (st : state) : state :=
  {| objects := objects st; COLLECTED_TICKETS := [];
     output_file := output_file st |}.

(** The dict display of a ticket allocates a new object. *)
Definition alloc (d : dict) (st : state) : state * loc :=
  ({| objects := objects st ++ [d];
      COLLECTED_TICKETS := COLLECTED_TICKETS st;
      output_file := output_file st |}, length (objects st)).

(** [COLLECTED_TICKETS.append(ticket)] *)
Definition tickets_append (l : loc) (st : state) : state :=
  {| objects := objects st; COLLECTED_TICKETS := COLLECTED_TICKETS st ++ [l];
     output_file := output_file st |}.

(** [obj[k] = v] on the object at [l]. *)
Definition setitem (l : loc) (k : string) (v : value) (st : state) : state :=
  {| objects := alter (dict_set k v) l (objects st);
     COLLECTED_TICKETS := COLLECTED_TICKETS st;
     output_file := output_file st |}.

(** [OUTPUT_PATH.write_text(...)] *)
Definition write_output (j : json) (st : state) : state :=
  {| objects := objects st; COLLECTED_TICKETS := COLLECTED_TICKETS st;
     output_file := Some j |}.

(** The dicts the buffer refers to, in order. *)
Definition collected (st : state) : list dict :=
  omap (λ l, objects st !! l) (COLLECTED_TICKETS st).

(** ** Rounding

    [round(x, ndigits)] on a rational: to the nearest multiple of
    [10^-ndigits], ties to the even one. *)

Definition round_half_even (x : Q) : Z :=
  let n := Qnum x in
  let d := Zpos (Qden x) in
  let f := (n / d)%Z in
  let r := (n mod d)%Z in
  match (2 * r ?= d)%Z with
  | Lt => f
  | Gt => (f + 1)%Z
  | Eq => if Z.even f then f else (f + 1)%Z
  end.

Definition round (x : Q) (ndigits : nat) : Q :=
  let scale := Z.to_pos (10 ^ Z.of_nat ndigits) in
  Qmake (round_half_even (x * inject_Z (Zpos scale))) scale.

(** ** The tool interface

    The declared input schema of a tool, as the [inputSchema] argument of
    the [@tool] decorator writes it: the required keys, and for each
    property its JSON type and, for an enumeration, the allowed strings. *)

Inductive json_type := TString | TNumber | TBoolean.

Record property := {
  p_type : json_type;
  p_enum : option (list string);
  p_description : option string;
}.

Record input_schema := {
  required : list string;
  properties : list (string * property);
}.

Record tool_spec := {
  tool_name : string;
  tool_description : string;
  inputSchema : input_schema;
}.

Definition has_type (t : json_type) (v : value) : bool :=
  match t, v with
  | TString, VAtom (AStr _) => true
  | TNumber, VAtom (ANum _) => true
  | TBoolean, VAtom (ABool _) => true
  | _, _ => false
  end.

Definition property_ok (p : property) (v : value) : bool :=
  has_type (p_type p) v &&
  match p_enum p with
  | None => true
  | Some allowed =>
      match v with
      | VAtom (AStr s) => bool_decide (s ∈ allowed)
      | _ => false
      end
  end.

Fixpoint lookup_property (k : string) (ps : list (string * property))
  : option property :=
  match ps with
  | [] => None
  | (k', p) :: ps' => if decide (k = k') then Some p else lookup_property k ps'
  end.

(** An argument object conforms to a schema when every required key is
    present and every key that the schema describes holds a value of the
    declared type and, for an enumeration, one of the allowed strings. *)
Definition conforms (sch : input_schema) (obj : dict) : bool :=
  forallb (λ k, bool_decide (is_Some (dict_get k obj))) (required sch) &&
  forallb (λ kv, match lookup_property kv.1 (properties sch) with
                 | Some p => property_ok p kv.2
                 | None => true
                 end) obj.

(** The eleven parameters of [waste_report].  All eleven are required by
    the signature (none has a default).  The body does not look at the
    values, so the record lets each parameter hold any atom: that is what
    a direct call of the function can pass.  Through the agent the values
    are narrower: the tool library checks the tool input against the
    annotations of the signature and converts it ([str], [float], [bool])
    before the body runs, so that the body then receives values for which
    [signature_typed] below holds. *)
Record args := {
  area_name : atom;
  lat : atom;
  lng : atom;
  waste_type : atom;
  volume_level : atom;
  estimated_weight_kg : atom;
  priority : atom;
  near_sensitive_zone : atom;
  action : atom;
  vehicle_type : atom;
  requires_after_photo : atom;
}.

(** The argument object of a call, keyed by parameter name. *)
Definition kwargs (a : args) : dict :=
  [ ("area_name", VAtom (area_name a));
    ("lat", VAtom (lat a));
    ("lng", VAtom (lng a));
    ("waste_type", VAtom (waste_type a));
    ("volume_level", VAtom (volume_level a));
    ("estimated_weight_kg", VAtom (estimated_weight_kg a));
    ("priority", VAtom (priority a));
    ("near_sensitive_zone", VAtom (near_sensitive_zone a));
    ("action", VAtom (action a));
    ("vehicle_type", VAtom (vehicle_type a));
    ("requires_after_photo", VAtom (requires_after_photo a)) ].

(** One invocation of the tool: the arguments, and what [uuid.uuid4()] and
    [datetime.now(IST).isoformat()] give during it. *)
Record invocation := {
  inv_args : args;
  inv_uuid : string;
  inv_now : string;
}.

(** What one agent call does, as seen from the repository: it invokes the
    tool and goes on from the tool's return value, or returns, or raises. *)
Inductive behaviour :=
| Done
| Fail (e : exn)
| Invoke (i : invocation) (k : dict → behaviour).

Section Exec.

(** The registered tool function. *)
Variable tool_fn : invocation → state → state * dict.

(** Running an agent call against the program state. *)
Fixpoint exec (b : behaviour) (st : state) : state * option exn :=
  match b with
  | Done => (st, None)
  | Fail e => (st, Some e)
  | Invoke i k => let '(st', r) := tool_fn i st in exec (k r) st'
  end.

End Exec.

(** ** The request sent to the model *)

Record model_config := {
  model_id : string;
  region_name : string;
  temperature : Q;
  max_tokens : Z;
}.

Inductive content_block :=
| TextBlock (text : string)
| ImageBlock (format : string) (bytes : list Byte.byte).

Record request := {
  req_model : model_config;
  req_tools : list tool_spec;
  req_system_prompt : string;
  req_prompt : list content_block;
}.

(** The surroundings of one extraction call: how the model answers a
    request, and the readings of [time.time()] before and after the agent
    call. *)
Record env := {
  model : request → behaviour;
  time_before : Q;
  time_after : Q;
}.

(** ** [main.py] *)

Module Main.

Definition NOVA_SYSTEM : string :=
"
You are an expert waste-detection AI.

Analyze the image and call waste_report EXACTLY ONCE.
Do not output any text outside the tool call.
".

Definition NOVA_USER : string :=
"
Inspect the image carefully and call waste_report once.
".

(** The [@tool(...)] declaration of [waste_report]. *)
Definition waste_report_spec : tool_spec :=
  let plain t := {| p_type := t; p_enum := None; p_description := None |} in
  let enum vs := {| p_type := TString; p_enum := Some vs; p_description := None |} in
  {| tool_name := "waste_report";
     tool_description := "Generate a structured waste hotspot ticket.";
     inputSchema :=
       {| required :=
            [ "area_name"; "lat"; "lng"; "waste_type"; "volume_level";
              "estimated_weight_kg"; "priority"; "near_sensitive_zone";
              "action"; "vehicle_type"; "requires_after_photo" ];
          properties :=
            [ ("area_name",
               {| p_type := TString; p_enum := None;
                  p_description := Some "Human-readable locality or neighbourhood name inferred from coordinates or image context." |});
              ("lat", plain TNumber);
              ("lng", plain TNumber);
              ("waste_type",
               enum ["ORGANIC"; "PLASTIC"; "E_WASTE"; "C_D_WASTE"; "MIXED"; "OTHER"]);
              ("volume_level", enum ["LOW"; "MEDIUM"; "HIGH"]);
              ("estimated_weight_kg", plain TNumber);
              ("priority", enum ["P0"; "P1"; "P2"]);
              ("near_sensitive_zone", plain TBoolean);
              ("action", enum ["DISPATCH_NOW"; "ADD_TO_ROUTE"; "MONITOR"]);
              ("vehicle_type", enum ["E_RICKSHAW"; "PICKUP"; "COMPACTOR"; "OTHER"]);
              ("requires_after_photo", plain TBoolean) ] |} |}.

(** The dict display that [waste_report] binds to [ticket]. *)
Definition new_ticket (i : invocation) : dict :=
  let a := inv_args i in
  [ ("ticket_id", VAtom (AStr (inv_uuid i)));
    ("created_at", VAtom (AStr (inv_now i)));
    ("area_name", VAtom (area_name a));
    ("lat", VAtom (lat a));
    ("lng", VAtom (lng a));
    ("waste_type", VAtom (waste_type a));
    ("volume_level", VAtom (volume_level a));
    ("estimated_weight_kg", VAtom (estimated_weight_kg a));
    ("priority", VAtom (priority a));
    ("near_sensitive_zone", VAtom (near_sensitive_zone a));
    ("action", VAtom (action a));
    ("vehicle_type", VAtom (vehicle_type a));
    ("requires_after_photo", VAtom (requires_after_photo a));
    ("wall_time_seconds", VAtom ANone) ].

(** The body of [waste_report]: clear the buffer, build the ticket, append
    it, answer success. *)
Definition waste_report (i : invocation) (st : state) : state * dict :=
  let st := tickets_clear st in
  let '(st, ticket) := alloc (new_ticket i) st in
  let st := tickets_append ticket st in
  (st, [("status", VAtom (AStr "success"))]).

Definition bedrock_model : model_config :=
  {| model_id := "amazon.nova-pro-v1:0";
     region_name := "us-east-1";
     temperature := 2 # 10;
     max_tokens := 4096 |}.

(** The request of [run_model]: the image format is the constant "png". *)
Definition agent_request (image_bytes : list Byte.byte) : request :=
  {| req_model := bedrock_model;
     req_tools := [waste_report_spec];
     req_system_prompt := NOVA_SYSTEM;
     req_prompt := [TextBlock NOVA_USER; ImageBlock "png" image_bytes] |}.

Definition run_model (e : env) (image_bytes : list Byte.byte) (st : state)
  : state * result dict :=
  let start_time := time_before e in
  match exec waste_report (model e (agent_request image_bytes)) st with
  | (st, Some exc) => (st, Raise exc)
  | (st, None) =>
      let elapsed := round (time_after e - start_time) 4 in
      match COLLECTED_TICKETS st with
      | [] => (st, Raise (RuntimeError "Model did not call waste_report."))
      | ticket :: _ =>
          let st := setitem ticket "wall_time_seconds" (VAtom (ANum elapsed)) st in
          (st, Return [("ticket", VRef ticket)])
      end
  end.

Definition IMAGE_PATH : string :=
  "/Users/dhanush/Documents/Dhanush/sutham/image.png".

(** [main()].  [image_file] is the contents of [IMAGE_PATH], [None] when the
    file does not exist.  Inside the [try], [run_model] is followed by
    [json.dumps(result["ticket"])] for printing; an exception of either is
    caught and turned into the error dict.  The write to the output file
    comes after the [try].  Standard output is not modelled, and the read
    of an image that exists, the prints and the write of the output file
    are taken to succeed: their own failures (an image path that cannot be
    read, an output path that cannot be written) are outside this
    function. *)
Definition main (image_file : option (list Byte.byte)) (e : env) (st : state)
  : state * result () :=
  match image_file with
  | None => (st, Raise (FileNotFoundError ("Image not found: " +:+ IMAGE_PATH)))
  | Some image_bytes =>
      let '(st, r) := run_model e image_bytes st in
      let attempt :=
        match r with
        | Return result =>
            match dict_get "ticket" result with
            | Some t =>
                match json_dumps_value (objects st) t with
                | Some _ => Return result
                | None => Raise (ValueError "Circular reference detected")
                end
            | None => Raise {| exn_class := "KeyError"; exn_message := "'ticket'" |}
            end
        | Raise exc => Raise exc
        end in
      let result :=
        match attempt with
        | Return result => result
        | Raise exc => [("error", VAtom (AStr (exn_message exc)))]
        end in
      match json_dumps (objects st) result with
      | Some j => (write_output j st, Return ())
      | None => (st, Raise (ValueError "Circular reference detected"))
      end
  end.

End Main.

(** ** [app.py] *)

Module App.

Definition NOVA_SYSTEM : string :=
"
You are an expert waste-detection AI.

Analyze the image and call waste_report EXACTLY ONCE.
Do not output any text outside the tool call.
".

Definition NOVA_USER : string :=
"
Inspect the image carefully and call waste_report once.
".

(** The [@tool(...)] declaration of [waste_report]. *)
Definition waste_report_spec : tool_spec :=
  let plain t := {| p_type := t; p_enum := None; p_description := None |} in
  let enum vs := {| p_type := TString; p_enum := Some vs; p_description := None |} in
  {| tool_name := "waste_report";
     tool_description := "Generate a structured waste hotspot ticket.";
     inputSchema :=
       {| required :=
            [ "area_name"; "lat"; "lng"; "waste_type"; "volume_level";
              "estimated_weight_kg"; "priority"; "near_sensitive_zone";
              "action"; "vehicle_type"; "requires_after_photo" ];
          properties :=
            [ ("area_name",
               {| p_type := TString; p_enum := None;
                  p_description := Some "Human-readable locality or neighbourhood name inferred from coordinates or image context." |});
              ("lat", plain TNumber);
              ("lng", plain TNumber);
              ("waste_type",
               enum ["ORGANIC"; "PLASTIC"; "E_WASTE"; "C_D_WASTE"; "MIXED"; "OTHER"]);
              ("volume_level", enum ["LOW"; "MEDIUM"; "HIGH"]);
              ("estimated_weight_kg", plain TNumber);
              ("priority", enum ["P0"; "P1"; "P2"]);
              ("near_sensitive_zone", plain TBoolean);
              ("action", enum ["DISPATCH_NOW"; "ADD_TO_ROUTE"; "MONITOR"]);
              ("vehicle_type", enum ["E_RICKSHAW"; "PICKUP"; "COMPACTOR"; "OTHER"]);
              ("requires_after_photo", plain TBoolean) ] |} |}.

(** The dict display that [waste_report] binds to [ticket]. *)
Definition new_ticket (i : invocation) : dict :=
  let a := inv_args i in
  [ ("ticket_id", VAtom (AStr (inv_uuid i)));
    ("created_at", VAtom (AStr (inv_now i)));
    ("area_name", VAtom (area_name a));
    ("lat", VAtom (lat a));
    ("lng", VAtom (lng a));
    ("waste_type", VAtom (waste_type a));
    ("volume_level", VAtom (volume_level a));
    ("estimated_weight_kg", VAtom (estimated_weight_kg a));
    ("priority", VAtom (priority a));
    ("near_sensitive_zone", VAtom (near_sensitive_zone a));
    ("action", VAtom (action a));
    ("vehicle_type", VAtom (vehicle_type a));
    ("requires_after_photo", VAtom (requires_after_photo a));
    ("wall_time_seconds", VAtom ANone) ].

(** The body of [waste_report]: clear the buffer, build the ticket, append
    it, answer success. *)
Definition waste_report (i : invocation) (st : state) : state * dict :=
  let st := tickets_clear st in
  let '(st, ticket) := alloc (new_ticket i) st in
  let st := tickets_append ticket st in
  (st, [("status", VAtom (AStr "success"))]).

Definition bedrock_model : model_config :=
  {| model_id := "amazon.nova-pro-v1:0";
     region_name := "us-east-1";
     temperature := 2 # 10;
     max_tokens := 4096 |}.

(** The request of [run_model]: the image format is a parameter. *)
Definition agent_request (image_bytes : list Byte.byte) (image_format : string)
  : request :=
  {| req_model := bedrock_model;
     req_tools := [waste_report_spec];
     req_system_prompt := NOVA_SYSTEM;
     req_prompt := [TextBlock NOVA_USER; ImageBlock image_format image_bytes] |}.

Definition run_model (e : env) (image_bytes : list Byte.byte)
    (image_format : string) (st : state) : state * result dict :=
  let start_time := time_before e in
  match exec waste_report (model e (agent_request image_bytes image_format)) st with
  | (st, Some exc) => (st, Raise exc)
  | (st, None) =>
      let elapsed := round (time_after e - start_time) 4 in
      match COLLECTED_TICKETS st with
      | [] => (st, Raise (RuntimeError "Model did not call waste_report."))
      | ticket :: _ =>
          let st := setitem ticket "wall_time_seconds" (VAtom (ANum elapsed)) st in
          (st, Return [("ticket", VRef ticket)])
      end
  end.

(** The default of the [image_format] parameter. *)
Definition default_image_format : string := "png".

(** [image_format = "jpeg" if ext in ("jpg", "jpeg") else "png"], on the
    lower-cased extension of the uploaded file's name. *)
Definition image_format_of (ext : string) : string :=
  if bool_decide (ext ∈ ["jpg"; "jpeg"]) then "jpeg" else "png".

(** What the page shows after the button is pressed. *)
Inductive page :=
| ShowTicket (ticket : value)
| ShowError (message : string).

(** The body of the "Run Waste Detection" button.  [run_model], the lookup
    of [result["ticket"]] and the write of the output file are all inside
    the [try]; the handler reports the exception with [st.error] and ends
    the script run with [st.stop()]. *)
Definition run_detection (image_bytes : list Byte.byte) (image_format : string)
    (e : env) (st : state) : state * page :=
  let '(st, r) := run_model e image_bytes image_format st in
  let attempt :=
    match r with
    | Return result =>
        match dict_get "ticket" result with
        | Some ticket =>
            match json_dumps (objects st) result with
            | Some j => (write_output j st, Return ticket)
            | None => (st, Raise (ValueError "Circular reference detected"))
            end
        | None => (st, Raise {| exn_class := "KeyError"; exn_message := "'ticket'" |})
        end
    | Raise exc => (st, Raise exc)
    end in
  match attempt with
  | (st, Return ticket) => (st, ShowTicket ticket)
  | (st, Raise exc) => (st, ShowError ("❌ Detection failed: " +:+ exn_message exc))
  end.

End App.

(** ** Python strings as sequences of code points

    The text that [nova.py] handles comes from outside (a model answer, an
    HTTP header, a path): a [text] is a list of Unicode code points, and the
    functions below are the [str] methods the source calls on it. *)

Abbreviation text := (list N).

(** The code points of an ASCII literal. *)
Definition txt (s : string) : text :=
  Ascii.N_of_ascii <$> String.list_ascii_of_string s.

(** [str.isspace] on one character: the characters that [str.strip()]
    removes. *)
Definition is_space (c : N) : bool :=
  ((9 <=? c) && (c <=? 13) || (28 <=? c) && (c <=? 32)
   || (c =? 133) || (c =? 160) || (c =? 5760)
   || (8192 <=? c) && (c <=? 8202)
   || (c =? 8232) || (c =? 8233) || (c =? 8239) || (c =? 8287)
   || (c =? 12288))%N.

Fixpoint lstrip (s : text) : text :=
  match s with
  | [] => []
  | c :: s' => if is_space c then lstrip s' else s
  end.

Definition rstrip (s : text) : text := reverse (lstrip (reverse s)).

(** [s.strip()] *)
Definition strip (s : text) : text := rstrip (lstrip s).

(** [s.startswith(p)] *)
Fixpoint startswith (p s : text) : bool :=
  match p, s with
  | [], _ => true
  | _ :: _, [] => false
  | a :: p', b :: s' => bool_decide (a = b) && startswith p' s'
  end.

(** The scan of [s.split(sep)] for a non-empty [sep], left to right:
    [cur] holds the characters of the piece being read, last first, and
    [skip] counts the characters of a separator still to pass over. *)
Fixpoint split_go (sep s : text) (skip : nat) (cur : text) : list text :=
  match s with
  | [] => [reverse cur]
  | c :: s' =>
      match skip with
      | S k => split_go sep s' k cur
      | O =>
          if startswith sep s
          then reverse cur :: split_go sep s' (length sep - 1) []
          else split_go sep s' 0 (c :: cur)
      end
  end.

(** [s.split(sep)]; an empty separator is a [ValueError]. *)
Definition split (sep s : text) : result (list text) :=
  match sep with
  | [] => Raise (ValueError "empty separator")
  | _ :: _ => Return (split_go sep s 0 [])
  end.

Definition IndexError : exn :=
  {| exn_class := "IndexError"; exn_message := "list index out of range" |}.

(** [xs[i]] for [i >= 0] *)
Definition index {A} (xs : list A) (i : nat) : result A :=
  match xs !! i with
  | Some x => Return x
  | None => Raise IndexError
  end.

(** [xs[-1]] *)
Definition index_last {A} (xs : list A) : result A :=
  match last xs with
  | Some x => Return x
  | None => Raise IndexError
  end.

(** [d.get(k, default)] on a dict with text keys. *)
Fixpoint get_default (k : text) (d : list (text * text)) (default : text) : text :=
  match d with
  | [] => default
  | (k', v) :: d' => if decide (k = k') then v else get_default k d' default
  end.

(** Sequencing of operations that may raise. *)
Global Instance result_ret : MRet result := λ A a, Return a.
Global Instance result_bind : MBind result :=
  λ A B f r, match r with Return a => f a | Raise e => Raise e end.

(** ** [nova.py] *)

Module Nova.

Definition MODEL_ID : string := "amazon.nova-pro-v1:0".
Definition REGION : string := "us-east-1".

(** The answer of [requests.get]: the body and the [Content-Type] header,
    if the server sent one. *)
Record response := {
  content : list Byte.byte;
  content_type : option text;
}.

(** What [load_image] calls outside the repository.  [image] is the type of
    a decoded picture ([PIL.Image]).  [suffix_lower] gives
    [Path(image_source).suffix.lower()]; [save_jpeg] is
    [convert("RGB").save(buffer, format="JPEG")] followed by
    [buffer.getvalue()]. *)
Record world (image : Type) := {
  requests_get : text → result response;
  read_file : text → result (list Byte.byte);
  image_open : list Byte.byte → result image;
  save_jpeg : image → result (list Byte.byte);
  suffix_lower : text → text;
}.
Arguments requests_get {image} w.
Arguments read_file {image} w.
Arguments image_open {image} w.
Arguments save_jpeg {image} w.
Arguments suffix_lower {image} w.

Definition mime_map : list (text * text) :=
  [ (txt ".jpg", txt "image/jpeg"); (txt ".jpeg", txt "image/jpeg");
    (txt ".png", txt "image/png"); (txt ".webp", txt "image/webp");
    (txt ".gif", txt "image/gif"); (txt ".avif", txt "image/jpeg") ].

(** The test of the first [if] of [load_image]. *)
Definition is_url (image_source : text) : bool :=
  startswith (txt "http://") image_source
  || startswith (txt "https://") image_source.

(** The suffixes that [load_image] re-encodes. *)
Definition reencoded : list text := [txt ".avif"; txt ".tiff"; txt ".bmp"].

(** [GarbageDetectionPipeline.load_image].  Standard output is not
    modelled. *)
Definition load_image {image} (w : world image) (image_source : text)
  : result (list Byte.byte * text * image) :=
  '(image_bytes, mime_type) ←
    (if is_url image_source then
       r ← requests_get w image_source;
       let image_bytes := content r in
       parts ← split (txt ";")
                 (default (txt "image/jpeg") (content_type r));
       mime_type ← index parts 0;
       mret (image_bytes, mime_type)
     else
       image_bytes ← read_file w image_source;
       let ext := suffix_lower w image_source in
       let mime_type := get_default ext mime_map (txt "image/jpeg") in
       mret (image_bytes, mime_type));
  pil_image ← image_open w image_bytes;
  '(image_bytes, mime_type) ←
    (if bool_decide (suffix_lower w image_source ∈ reencoded) then
       image_bytes ← save_jpeg w pil_image;
       mret (image_bytes, txt "image/jpeg")
     else mret (image_bytes, mime_type));
  mret (image_bytes, mime_type, pil_image).

(** [fmt = mime_type.split("/")[-1]] in [analyze]. *)
Definition format_of (mime_type : text) : result text :=
  parts ← split (txt "/") mime_type;
  index_last parts.

(** The formats that the comment in [load_image] names as accepted by the
    model: jpeg, png, gif, webp. *)
Definition accepted_formats : list text :=
  [txt "jpeg"; txt "png"; txt "gif"; txt "webp"].

Definition fence : text := txt "```".

(** The fence removal of [analyze], from [raw_text.strip()] to the second
    [raw_text.strip()]: the text that goes to [json.loads]. *)
Definition strip_code_fences (raw_text : text) : result text :=
  let raw_text := strip raw_text in
  raw_text ←
    (if startswith fence raw_text then
       parts ← split fence raw_text;
       raw_text ← index parts 1;
       mret (if startswith (txt "json") raw_text then drop 4 raw_text
             else raw_text)
     else mret raw_text);
  mret (strip raw_text).

(** A value that [json.loads] can give. *)
#[warnings="-register-all"]
Inductive jvalue :=
| JVnull
| JVbool (b : bool)
| JVint (z : Z)
| JVfloat (q : Q)
| JVstr (s : text)
| JVarr (items : list jvalue)
| JVobj (fields : list (text * jvalue)).

Fixpoint field_get (k : text) (fs : list (text * jvalue)) : option jvalue :=
  match fs with
  | [] => None
  | (k', v) :: fs' => if decide (k = k') then Some v else field_get k fs'
  end.

Fixpoint field_set (k : text) (v : jvalue) (fs : list (text * jvalue))
  : list (text * jvalue) :=
  match fs with
  | [] => [(k, v)]
  | (k', v') :: fs' =>
      if decide (k = k') then (k', v) :: fs' else (k', v') :: field_set k v fs'
  end.

Definition TypeError (msg : string) : exn :=
  {| exn_class := "TypeError"; exn_message := msg |}.
Definition KeyError (msg : string) : exn :=
  {| exn_class := "KeyError"; exn_message := msg |}.

(** [result[k] = v] where [result] is whatever [json.loads] gave: only a
    dict takes a string key. *)
Definition item_set (k : text) (v : jvalue) (target : jvalue) : result jvalue :=
  match target with
  | JVobj fs => Return (JVobj (field_set k v fs))
  | JVarr _ => Raise (TypeError "list indices must be integers or slices, not str")
  | JVstr _ => Raise (TypeError "'str' object does not support item assignment")
  | JVint _ => Raise (TypeError "'int' object does not support item assignment")
  | JVfloat _ => Raise (TypeError "'float' object does not support item assignment")
  | JVbool _ => Raise (TypeError "'bool' object does not support item assignment")
  | JVnull => Raise (TypeError "'NoneType' object does not support item assignment")
  end.

(** The request of [client.converse].  The system prompt is a parameter of
    the model: no property depends on its text. *)
Record converse_request := {
  modelId : string;
  system : text;
  image_format : text;
  image_bytes : list Byte.byte;
  user_text : string;
  cr_temperature : Q;
  maxTokens : Z;
}.

(** The answer of [client.converse], as far as [analyze] reads it: the
    content blocks of the output message, each with its ["text"] entry if
    it has one, and the ["usage"] entry, if present, with its two
    counters, if present. *)
Record converse_response := {
  blocks : list (option text);
  usage : option (option jvalue * option jvalue);
}.

Record service := {
  GARBAGE_SYSTEM_PROMPT : text;
  converse : converse_request → result converse_response;
  json_loads : text → result jvalue;
}.

(** [GarbageDetectionPipeline.analyze].  Standard output is not modelled. *)
Definition analyze {image} (w : world image) (s : service) (image_source : text)
  : result jvalue :=
  '(image_bytes, mime_type, pil_image) ← load_image w image_source;
  fmt ← format_of mime_type;
  response ← converse s
    {| modelId := MODEL_ID;
       system := GARBAGE_SYSTEM_PROMPT s;
       image_format := fmt;
       image_bytes := image_bytes;
       user_text := "Analyze this image for garbage/waste detection. Return structured JSON only.";
       cr_temperature := 1 # 10;
       maxTokens := 1024 |};
  block ← index (blocks response) 0;
  raw_text ← match block with
             | Some t => Return t
             | None => Raise (KeyError "'text'")
             end;
  raw_text ← strip_code_fences raw_text;
  result ← json_loads s raw_text;
  result ← item_set (txt "image_source") (JVstr image_source) result;
  result ← item_set (txt "model_used") (JVstr (txt MODEL_ID)) result;
  let usage := default (None, None) (usage response) in
  item_set (txt "tokens_used")
    (JVobj [ (txt "input", default (JVint 0) usage.1);
             (txt "output", default (JVint 0) usage.2) ]) result.

End Nova.

(** ** Vocabulary of the statements *)

(** The answer of the tool. *)
Definition tool_success : dict := [("status", VAtom (AStr "success"))].

(** The invocations that a behaviour issues when every invocation is
    answered by [tool_success], and how it ends ([None]: it returns). *)
Fixpoint trace (b : behaviour) : list invocation * option exn :=
  match b with
  | Done => ([], None)
  | Fail e => ([], Some e)
  | Invoke i k => let '(invs, o) := trace (k tool_success) in (i :: invs, o)
  end.

(** The arguments satisfy the schema declared for [waste_report]. *)
Definition schema_valid (a : args) : bool :=
  conforms (inputSchema Main.waste_report_spec) (kwargs a).

(** The values have the types that the signature of [waste_report]
    annotates: [str] for the name and the five classifications, [float]
    for the three numbers, [bool] for the two flags.  Nothing is asked of
    which strings the classifications are. *)
Definition is_str (a : atom) : bool := match a with AStr _ => true | _ => false end.
Definition is_num (a : atom) : bool := match a with ANum _ => true | _ => false end.
Definition is_bool (a : atom) : bool := match a with ABool _ => true | _ => false end.

Definition signature_typed (a : args) : bool :=
  is_str (area_name a) && is_num (lat a) && is_num (lng a)
  && is_str (waste_type a) && is_str (volume_level a)
  && is_num (estimated_weight_kg a) && is_str (priority a)
  && is_bool (near_sensitive_zone a) && is_str (action a)
  && is_str (vehicle_type a) && is_bool (requires_after_photo a).

(** The geographic and weight ranges of the data model: latitude in
    [-90, 90], longitude in [-180, 180], weight at least 0. *)
Definition in_ranges (a : args) : bool :=
  match lat a, lng a, estimated_weight_kg a with
  | ANum y, ANum x, ANum w =>
      Qle_bool (-90) y && Qle_bool y 90 &&
      Qle_bool (-180) x && Qle_bool x 180 && Qle_bool 0 w
  | _, _, _ => false
  end.

(** A process that has just loaded the module: no object, an empty buffer;
    [f] is what the output file holds. *)
Definition fresh_process (f : option json) : state :=
  {| objects := []; COLLECTED_TICKETS := []; output_file := f |}.

(** The duration that [run_model] computes. *)
Definition elapsed_of (e : env) : Q := round (time_after e - time_before e) 4.

(** The JSON object of the ticket of invocation [i] with duration [w]. *)
Definition ticket_json (i : invocation) (w : Q) : json :=
  let a := inv_args i in
  JObj [ ("ticket_id", JStr (inv_uuid i));
         ("created_at", JStr (inv_now i));
         ("area_name", dumps_atom (area_name a));
         ("lat", dumps_atom (lat a));
         ("lng", dumps_atom (lng a));
         ("waste_type", dumps_atom (waste_type a));
         ("volume_level", dumps_atom (volume_level a));
         ("estimated_weight_kg", dumps_atom (estimated_weight_kg a));
         ("priority", dumps_atom (priority a));
         ("near_sensitive_zone", dumps_atom (near_sensitive_zone a));
         ("action", dumps_atom (action a));
         ("vehicle_type", dumps_atom (vehicle_type a));
         ("requires_after_photo", dumps_atom (requires_after_photo a));
         ("wall_time_seconds", JNum w) ].

(** The ticket of an invocation after the duration is patched in. *)
Definition patched_ticket (i : invocation) (w : Q) : dict :=
  dict_set "wall_time_seconds" (VAtom (ANum w)) (Main.new_ticket i).

(** The arguments [a] with other numbers for the three numeric fields. *)
Definition with_numbers (y x w : Q) (a : args) : args :=
  {| area_name := area_name a;
     lat := ANum y;
     lng := ANum x;
     waste_type := waste_type a;
     volume_level := volume_level a;
     estimated_weight_kg := ANum w;
     priority := priority a;
     near_sensitive_zone := near_sensitive_zone a;
     action := action a;
     vehicle_type := vehicle_type a;
     requires_after_photo := requires_after_photo a |}.

(** The surroundings [e] with a model that answers [b] to every request. *)
Definition answering (b : behaviour) (e : env) : env :=
  {| model := λ _, b; time_before := time_before e; time_after := time_after e |}.

(** The state after a list of tool invocations. *)
Definition run_calls (invs : list invocation) (st : state) : state :=
  fold_left (λ s i, (Main.waste_report i s).1) invs st.

(** ** Sample data *)

(** The arguments of the scenario "Race Course". *)
Definition race_course : args :=
  {| area_name := AStr "Race Course";
     lat := ANum (110025 # 10000);
     lng := ANum (769548 # 10000);
     waste_type := AStr "PLASTIC";
     volume_level := AStr "HIGH";
     estimated_weight_kg := ANum (1205 # 10);
     priority := AStr "P0";
     near_sensitive_zone := ABool true;
     action := AStr "DISPATCH_NOW";
     vehicle_type := AStr "COMPACTOR";
     requires_after_photo := ABool false |}.

Definition inv_race_course : invocation :=
  {| inv_args := race_course;
     inv_uuid := "3f2b8c1e-7a4d-4e0b-9c55-0d6a1f2e9b10";
     inv_now := "2025-01-15T10:30:00.123456+05:30" |}.

(** Arguments outside the schema by one value only: a waste type that is
    not in the declared enumeration.  Every value has the type of its
    parameter. *)
Definition off_schema : args :=
  {| area_name := AStr "Race Course";
     lat := ANum (110025 # 10000);
     lng := ANum (769548 # 10000);
     waste_type := AStr "BANANA";
     volume_level := AStr "HIGH";
     estimated_weight_kg := ANum (1205 # 10);
     priority := AStr "P0";
     near_sensitive_zone := ABool true;
     action := AStr "DISPATCH_NOW";
     vehicle_type := AStr "COMPACTOR";
     requires_after_photo := ABool false |}.

(** Arguments inside the schema and outside the ranges: a latitude of
    1000, a longitude of -500, a negative weight. *)
Definition off_range : args :=
  {| area_name := AStr "Nowhere";
     lat := ANum 1000;
     lng := ANum (-500);
     waste_type := AStr "MIXED";
     volume_level := AStr "LOW";
     estimated_weight_kg := ANum (-3);
     priority := AStr "P2";
     near_sensitive_zone := ABool false;
     action := AStr "MONITOR";
     vehicle_type := AStr "OTHER";
     requires_after_photo := ABool false |}.

Definition inv_off_schema : invocation :=
  {| inv_args := off_schema;
     inv_uuid := "9d1c0a52-55e1-4c3b-8a77-2b0e4f6d7c33";
     inv_now := "2025-01-15T10:31:00.000000+05:30" |}.

Definition inv_off_range : invocation :=
  {| inv_args := off_range;
     inv_uuid := "0b7e6d2a-1c9f-4a3e-b1d4-5e8f7a6c9d21";
     inv_now := "2025-01-15T10:32:00.000000+05:30" |}.

(** Stub models: one that never calls the tool, one that calls it once,
    one that calls it twice, one that fails in transport. *)
Definition silent_model : request → behaviour := λ _, Done.
Definition once_model (i : invocation) : request → behaviour :=
  λ _, Invoke i (λ _, Done).
Definition twice_model (i j : invocation) : request → behaviour :=
  λ _, Invoke i (λ _, Invoke j (λ _, Done)).
Definition broken_model (msg : string) : request → behaviour :=
  λ _, Fail {| exn_class := "EventLoopException"; exn_message := msg |}.

Definition env_of (m : request → behaviour) (t0 t1 : Q) : env :=
  {| model := m; time_before := t0; time_after := t1 |}.

(** An extraction call during which the system clock is set back: the
    reading after the agent call is earlier than the reading before. *)
Definition clock_set_back : env :=
  env_of (once_model inv_race_course) (103125 # 100000) 1.

(** Two extraction calls in one process: the model calls the tool once in
    the first and not at all in the second. *)
Definition first_call : env := env_of (once_model inv_race_course) 1 (25 # 10).
Definition second_call : env := env_of silent_model 10 17.
Definition state_after_first_call : state :=
  (Main.run_model first_call [] initial_state).1.

(** The states of a process that has loaded [main.py] and made any number
    of extraction calls, through [run_model] or through [main]. *)
Inductive reachable : state → Prop :=
| reach_load f : reachable (fresh_process f)
| reach_run_model e image_bytes st :
    reachable st → reachable (Main.run_model e image_bytes st).1
| reach_main image_file e st :
    reachable st → reachable (Main.main image_file e st).1.

(** The buffer is a single slot: empty, or one reference to an object. *)
Definition single_slot (st : state) : Prop :=
  COLLECTED_TICKETS st = []
  ∨ ∃ l, COLLECTED_TICKETS st = [l] ∧ l < length (objects st).

(** An object built by [waste_report], with or without its duration. *)
Definition is_ticket (d : dict) : Prop :=
  ∃ i, d = Main.new_ticket i ∨ ∃ w, d = patched_ticket i w.

(** A sample world for [load_image]: a picture is its bytes, the file
    system holds one file, the network one resource, and re-encoding puts a
    marker byte in front. *)
Definition sample_world : Nova.world (list Byte.byte) :=
  {| Nova.requests_get := λ url,
       if bool_decide (url = txt "https://example.org/beach.avif")
       then Return {| Nova.content := [Byte.x01; Byte.x02];
                      Nova.content_type := Some (txt "image/avif; q=1") |}
       else if bool_decide (url = txt "https://example.org/beach")
       then Return {| Nova.content := [Byte.x05];
                      Nova.content_type := Some (txt "image/png; charset=binary") |}
       else Raise {| exn_class := "ConnectionError"; exn_message := "unreachable" |};
     Nova.read_file := λ path,
       if bool_decide (path = txt "street.heic") then Return [Byte.x03; Byte.x04]
       else if bool_decide (path = txt "scan.bmp") then Return [Byte.x06]
       else Raise (FileNotFoundError "No such file or directory");
     Nova.image_open := λ b, Return b;
     Nova.save_jpeg := λ img, Return (Byte.xff :: img);
     Nova.suffix_lower := λ src,
       if bool_decide (src = txt "https://example.org/beach.avif") then txt ".avif"
       else if bool_decide (src = txt "street.heic") then txt ".heic"
       else if bool_decide (src = txt "scan.bmp") then txt ".bmp"
       else [] |}.

(** A sample service for [analyze]: it answers every request with one
    fenced text block and no usage entry, and parses that block's content
    into an object that already has a key "model_used". *)
Definition sample_service : Nova.service :=
  {| Nova.GARBAGE_SYSTEM_PROMPT := txt "You are an advanced garbage detection and classification AI.";
     Nova.converse := λ _,
       Return {| Nova.blocks := [Some (txt "```json{}```")];
                 Nova.usage := None |};
     Nova.json_loads := λ raw,
       if bool_decide (raw = txt "{}")
       then Return (Nova.JVobj [ (txt "model_used", Nova.JVstr (txt "gpt"));
                                 (txt "summary", Nova.JVstr (txt "clean")) ])
       else Raise {| exn_class := "JSONDecodeError";
                     exn_message := "Expecting value" |} |}.

(** * Properties *)

(** ** Dicts *)

Lemma dict_get_set_eq k v d : dict_get k (dict_set k v d) = Some v.
Proof.
  induction d as [|[k' v'] d IH]; simpl.
  - by rewrite decide_True.
  - destruct (decide (k = k')) as [->|Hne]; simpl.
    + by rewrite decide_True.
    + by rewrite decide_False.
Qed.

Lemma dict_get_set_ne k k' v d :
  k ≠ k' → dict_get k' (dict_set k v d) = dict_get k' d.
Proof.
  intros Hne. induction d as [|[k0 v0] d IH]; simpl.
  - rewrite decide_False; [done | congruence].
  - destruct (decide (k = k0)) as [->|Hk]; simpl.
    + rewrite !decide_False; [done | congruence | congruence].
    + destruct (decide (k' = k0)); [done | apply IH].
Qed.

Lemma dict_keys_set k v d : k ∈ dict_keys d → dict_keys (dict_set k v d) = dict_keys d.
Proof.
  unfold dict_keys. induction d as [|[k' v'] d IH]; simpl.
  - intros H. by apply elem_of_nil in H.
  - intros H. destruct (decide (k = k')) as [->|Hne]; simpl; [done |].
    f_equal. apply IH. apply elem_of_cons in H as [?|?]; [congruence | done].
Qed.

(** ** Rounding keeps the sign of a non-negative duration *)

Lemma round_half_even_nonneg (x : Q) : (0 <= Qnum x)%Z → (0 <= round_half_even x)%Z.
Proof.
  intros Hx. unfold round_half_even.
  assert (0 <= Qnum x / Z.pos (Qden x))%Z as Hf by (apply Z.div_pos; lia).
  destruct (2 * (Qnum x mod Z.pos (Qden x)) ?= Z.pos (Qden x))%Z; [|lia|lia].
  destruct (Z.even _); lia.
Qed.

Lemma round_nonneg (x : Q) (n : nat) : (0 <= x)%Q → (0 <= round x n)%Q.
Proof.
  intros Hx. unfold round, Qle. cbn [Qnum Qden].
  rewrite Z.mul_0_l, Z.mul_1_r.
  apply round_half_even_nonneg.
  unfold Qle in Hx. cbn [Qnum Qden] in Hx. rewrite Z.mul_0_l, Z.mul_1_r in Hx.
  cbn [Qmult Qnum inject_Z]. lia.
Qed.

Lemma elapsed_nonneg (e : env) :
  (time_before e <= time_after e)%Q → (0 <= elapsed_of e)%Q.
Proof.
  intros H. apply round_nonneg.
  apply (Qplus_le_l _ _ (time_before e)). ring_simplify. exact H.
Qed.

(** ** The tool function *)

Lemma app_waste_report_eq : App.waste_report = Main.waste_report.
Proof. reflexivity. Qed.

Lemma waste_report_unfold i st :
  Main.waste_report i st =
  ({| objects := objects st ++ [Main.new_ticket i];
      COLLECTED_TICKETS := [length (objects st)];
      output_file := output_file st |}, tool_success).
Proof. reflexivity. Qed.

Lemma run_calls_objects invs st :
  objects (run_calls invs st) = objects st ++ (Main.new_ticket <$> invs)
  ∧ output_file (run_calls invs st) = output_file st.
Proof.
  revert st. induction invs as [|i invs IH]; intros st.
  - simpl. by rewrite app_nil_r.
  - change (run_calls (i :: invs) st)
      with (run_calls invs (Main.waste_report i st).1).
    destruct (IH (Main.waste_report i st).1) as [-> ->].
    rewrite waste_report_unfold. simpl. by rewrite <- app_assoc.
Qed.

Lemma run_calls_snoc pre i st :
  run_calls (pre ++ [i]) st =
  {| objects := objects st ++ (Main.new_ticket <$> pre) ++ [Main.new_ticket i];
     COLLECTED_TICKETS := [length (objects st) + length pre];
     output_file := output_file st |}.
Proof.
  assert (run_calls (pre ++ [i]) st = (Main.waste_report i (run_calls pre st)).1)
    as -> by (unfold run_calls; by rewrite fold_left_app).
  rewrite waste_report_unfold. simpl.
  destruct (run_calls_objects pre st) as [-> ->].
  by rewrite length_app, length_fmap, <- app_assoc.
Qed.

(** Running a behaviour against the program follows its trace: the tool
    always answers [tool_success]. *)
Lemma exec_trace b st :
  exec Main.waste_report b st = (run_calls (trace b).1 st, (trace b).2).
Proof.
  revert st. induction b as [| e | i k IH]; intros st; [done | done |].
  cbn [exec trace]. rewrite waste_report_unfold, IH.
  by destruct (trace (k tool_success)).
Qed.

(** ** [run_model], case by case *)

Lemma run_model_unfold e image_bytes st :
  Main.run_model e image_bytes st =
  let b := model e (Main.agent_request image_bytes) in
  let st1 := run_calls (trace b).1 st in
  match (trace b).2 with
  | Some exc => (st1, Raise exc)
  | None =>
      match COLLECTED_TICKETS st1 with
      | [] => (st1, Raise (RuntimeError "Model did not call waste_report."))
      | ticket :: _ =>
          (setitem ticket "wall_time_seconds" (VAtom (ANum (elapsed_of e))) st1,
           Return [("ticket", VRef ticket)])
      end
  end.
Proof. unfold Main.run_model. by rewrite exec_trace. Qed.

Lemma app_run_model_png e image_bytes st :
  App.run_model e image_bytes "png" st = Main.run_model e image_bytes st.
Proof. reflexivity. Qed.

(** The model raises: the exception goes through. *)
Lemma run_model_raises e image_bytes st invs exc :
  trace (model e (Main.agent_request image_bytes)) = (invs, Some exc) →
  Main.run_model e image_bytes st = (run_calls invs st, Raise exc).
Proof. intros H. rewrite run_model_unfold. simpl. by rewrite H. Qed.

(** The model returns without a call, the buffer is empty at entry. *)
Lemma run_model_no_call_empty e image_bytes st :
  trace (model e (Main.agent_request image_bytes)) = ([], None) →
  COLLECTED_TICKETS st = [] →
  Main.run_model e image_bytes st =
  (st, Raise (RuntimeError "Model did not call waste_report.")).
Proof. intros H Hb. rewrite run_model_unfold. simpl. rewrite H. simpl. by rewrite Hb. Qed.

(** The model returns without a call, the buffer holds a reference. *)
Lemma run_model_no_call_stale e image_bytes st l ls :
  trace (model e (Main.agent_request image_bytes)) = ([], None) →
  COLLECTED_TICKETS st = l :: ls →
  Main.run_model e image_bytes st =
  (setitem l "wall_time_seconds" (VAtom (ANum (elapsed_of e))) st,
   Return [("ticket", VRef l)]).
Proof. intros H Hb. rewrite run_model_unfold. simpl. rewrite H. simpl. by rewrite Hb. Qed.

(** The model returns after at least one call: the ticket of the last call
    is patched and returned; the objects that existed before are kept. *)
Lemma run_model_last e image_bytes st pre i :
  trace (model e (Main.agent_request image_bytes)) = (pre ++ [i], None) →
  Main.run_model e image_bytes st =
  ({| objects := objects st ++ (Main.new_ticket <$> pre)
                   ++ [patched_ticket i (elapsed_of e)];
      COLLECTED_TICKETS := [length (objects st) + length pre];
      output_file := output_file st |},
   Return [("ticket", VRef (length (objects st) + length pre))]).
Proof.
  intros H. rewrite run_model_unfold. cbn zeta. rewrite H.
  cbn [fst snd]. rewrite run_calls_snoc. cbn [COLLECTED_TICKETS].
  unfold setitem. cbn [objects COLLECTED_TICKETS output_file].
  do 2 f_equal.
  rewrite alter_app_r.
  replace (length pre) with (length (Main.new_ticket <$> pre) + 0)
    by (rewrite length_fmap; lia).
  by rewrite alter_app_r.
Qed.

Lemma dict_get_kwargs_ticket i w k v :
  dict_get k (kwargs (inv_args i)) = Some v →
  dict_get k (patched_ticket i w) = Some v.
Proof.
  unfold patched_ticket, Main.new_ticket, kwargs; simpl.
  repeat case_decide; subst; try done.
Qed.

Lemma collected_last (h : list dict) (t : dict) f :
  collected {| objects := h ++ [t]; COLLECTED_TICKETS := [length h];
               output_file := f |} = [t].
Proof. unfold collected. simpl. by rewrite list_lookup_middle. Qed.

Lemma patched_ticket_keys i w :
  dict_keys (patched_ticket i w) =
  [ "ticket_id"; "created_at"; "area_name"; "lat"; "lng"; "waste_type";
    "volume_level"; "estimated_weight_kg"; "priority"; "near_sensitive_zone";
    "action"; "vehicle_type"; "requires_after_photo"; "wall_time_seconds" ].
Proof. reflexivity. Qed.

(** ** The single-slot invariant *)

Lemma single_slot_run_calls invs st :
  single_slot st → single_slot (run_calls invs st).
Proof.
  intros Hst. destruct invs as [|i pre _] using rev_ind; [done |].
  rewrite run_calls_snoc. right. eexists. split; [reflexivity |].
  cbn [objects]. rewrite !length_app, length_fmap. simpl. lia.
Qed.

Lemma single_slot_setitem l k v st :
  single_slot st → single_slot (setitem l k v st).
Proof.
  intros [H | (l' & H & Hl)]; [by left |].
  right. exists l'. split; [done |]. simpl. by rewrite length_alter.
Qed.

Lemma single_slot_run_model e image_bytes st :
  single_slot st → single_slot (Main.run_model e image_bytes st).1.
Proof.
  intros Hst. rewrite run_model_unfold. cbn zeta.
  pose proof (single_slot_run_calls
                (trace (model e (Main.agent_request image_bytes))).1 st Hst) as H1.
  destruct (trace (model e (Main.agent_request image_bytes))).2; [done |].
  destruct (COLLECTED_TICKETS (run_calls _ st)) eqn:Hb; [done |].
  by apply single_slot_setitem.
Qed.

Lemma single_slot_main image_file e st :
  single_slot st → single_slot (Main.main image_file e st).1.
Proof.
  intros Hst. unfold Main.main. destruct image_file as [image_bytes|]; [| done].
  pose proof (single_slot_run_model e image_bytes st Hst) as H1.
  destruct (Main.run_model e image_bytes st) as [st1 r]. cbn [fst] in H1.
  match goal with |- single_slot (match ?j with _ => _ end).1 =>
    destruct j; done end.
Qed.

(** In every reachable state the buffer is a single slot. *)
Lemma reachable_single_slot st : reachable st → single_slot st.
Proof.
  induction 1 as [f | e image_bytes st _ IH | image_file e st _ IH].
  - by left.
  - by apply single_slot_run_model.
  - by apply single_slot_main.
Qed.

Lemma state_after_first_call_reachable : reachable state_after_first_call.
Proof. apply (reach_run_model first_call [] _ (reach_load None)). Qed.

(** The web page sends "jpeg" or "png", never another tag. *)
Lemma image_format_of_cases ext :
  App.image_format_of ext = "jpeg" ∨ App.image_format_of ext = "png".
Proof. unfold App.image_format_of. case_bool_decide; auto. Qed.

(** ** The claims *)

(** C1, as stated, fails.  The duration is the difference of two readings
    of [time.time()], rounded; nothing keeps it from being negative.  With
    the clock set back by 0.03125 s during the call, the arguments "Race
    Course", which conform to the schema, give a ticket whose
    [wall_time_seconds] is -0.0312. *)
Lemma C1_clock_set_back_negative_duration :
  schema_valid race_course = true
  ∧ trace (model clock_set_back (Main.agent_request []))
    = ([inv_race_course], None)
  ∧ (Main.run_model clock_set_back [] initial_state).2
    = Return [("ticket", VRef 0)]
  ∧ objects (Main.run_model clock_set_back [] initial_state).1 !! 0
      ≫= dict_get "wall_time_seconds" = Some (VAtom (ANum (-312 # 10000)))
  ∧ (-312 # 10000 < 0)%Q.
Proof. vm_compute. repeat split. Qed.

(** C1, amended.  When the model invokes [waste_report] once, with
    arguments that conform to the declared schema, and returns,
    [run_model] returns [{"ticket": t}] where [t] holds every callback
    argument under its own name, unchanged, a [ticket_id] that is the
    generated string, a [created_at] that is the timestamp string, and a
    [wall_time_seconds] that is the number [round(t1 - t0, 4)] of the two
    clock readings: non-negative whenever the second reading is not
    earlier than the first.  [t] has these fourteen keys and no other. *)
Theorem C1_run_model_returns_callback_ticket e image_bytes st i :
  schema_valid (inv_args i) = true →
  trace (model e (Main.agent_request image_bytes)) = ([i], None) →
  ∃ st' l t,
    Main.run_model e image_bytes st = (st', Return [("ticket", VRef l)])
    ∧ objects st' !! l = Some t
    ∧ (∀ k v, dict_get k (kwargs (inv_args i)) = Some v → dict_get k t = Some v)
    ∧ dict_get "ticket_id" t = Some (VAtom (AStr (inv_uuid i)))
    ∧ dict_get "created_at" t = Some (VAtom (AStr (inv_now i)))
    ∧ dict_get "wall_time_seconds" t
      = Some (VAtom (ANum (round (time_after e - time_before e) 4)))
    ∧ ((time_before e <= time_after e)%Q →
       (0 <= round (time_after e - time_before e) 4)%Q)
    ∧ length t = 14.
Proof.
  intros _ Htr.
  eexists _, _, (patched_ticket i (elapsed_of e)).
  split; [apply (run_model_last e image_bytes st [] i Htr) |].
  split.
  { simpl. rewrite Nat.add_0_r. by rewrite list_lookup_middle. }
  split; [intros k v; apply dict_get_kwargs_ticket |].
  repeat split; try reflexivity.
  apply elapsed_nonneg.
Qed.

Lemma C1_witness :
  let e := env_of (once_model inv_race_course) 1 (25 # 10) in
  schema_valid race_course = true
  ∧ trace (model e (Main.agent_request [])) = ([inv_race_course], None)
  ∧ ∃ st' l t,
      Main.run_model e [] initial_state = (st', Return [("ticket", VRef l)])
      ∧ objects st' !! l = Some t
      ∧ (∀ k v, dict_get k (kwargs race_course) = Some v → dict_get k t = Some v)
      ∧ dict_get "ticket_id" t = Some (VAtom (AStr (inv_uuid inv_race_course)))
      ∧ dict_get "created_at" t = Some (VAtom (AStr (inv_now inv_race_course)))
      ∧ dict_get "wall_time_seconds" t
        = Some (VAtom (ANum (round (time_after e - time_before e) 4)))
      ∧ ((time_before e <= time_after e)%Q →
         (0 <= round (time_after e - time_before e) 4)%Q)
      ∧ length t = 14.
Proof.
  intros e.
  assert (schema_valid race_course = true) as Hs by (vm_compute; reflexivity).
  assert (trace (model e (Main.agent_request [])) = ([inv_race_course], None))
    as Ht by reflexivity.
  split; [exact Hs |]. split; [exact Ht |].
  exact (C1_run_model_returns_callback_ticket e [] initial_state
           inv_race_course Hs Ht).
Defined.

(** C2.  When the model invokes [waste_report] with [a] and then with [b]
    and returns, the buffer after the two invocations holds what it holds
    after the invocation with [b] alone, namely the one ticket built from
    [b]; [run_model] returns that ticket with the duration patched in, and
    the buffer holds this ticket and nothing else. *)
Theorem C2_second_invocation_overwrites e image_bytes st a b :
  trace (model e (Main.agent_request image_bytes)) = ([a; b], None) →
  collected (Main.waste_report b (Main.waste_report a st).1).1
    = collected (Main.waste_report b st).1
  ∧ collected (Main.waste_report b st).1 = [Main.new_ticket b]
  ∧ ∃ st' l,
      Main.run_model e image_bytes st = (st', Return [("ticket", VRef l)])
      ∧ objects st' !! l = Some (patched_ticket b (elapsed_of e))
      ∧ collected st' = [patched_ticket b (elapsed_of e)].
Proof.
  intros Htr.
  split; [by rewrite !waste_report_unfold; cbn [fst]; rewrite !collected_last |].
  split; [by rewrite waste_report_unfold; cbn [fst]; rewrite collected_last |].
  eexists _, _.
  split; [apply (run_model_last e image_bytes st [a] b Htr) |].
  cbn [objects fmap list_fmap length]. split.
  - rewrite app_assoc.
    replace (length (objects st) + 1)
      with (length (objects st ++ [Main.new_ticket a]))
      by (rewrite length_app; simpl; lia).
    by rewrite list_lookup_middle.
  - rewrite app_assoc.
    replace (length (objects st) + 1)
      with (length (objects st ++ [Main.new_ticket a]))
      by (rewrite length_app; simpl; lia).
    apply collected_last.
Qed.

Lemma C2_witness :
  let e := env_of (twice_model inv_off_range inv_race_course) 1 (25 # 10) in
  trace (model e (Main.agent_request [])) = ([inv_off_range; inv_race_course], None)
  ∧ collected (Main.waste_report inv_race_course
                 (Main.waste_report inv_off_range initial_state).1).1
      = collected (Main.waste_report inv_race_course initial_state).1
  ∧ collected (Main.waste_report inv_race_course initial_state).1
      = [Main.new_ticket inv_race_course]
  ∧ ∃ st' l,
      Main.run_model e [] initial_state = (st', Return [("ticket", VRef l)])
      ∧ objects st' !! l = Some (patched_ticket inv_race_course (elapsed_of e))
      ∧ collected st' = [patched_ticket inv_race_course (elapsed_of e)].
Proof.
  intros e.
  assert (trace (model e (Main.agent_request []))
          = ([inv_off_range; inv_race_course], None)) as Ht by reflexivity.
  split; [exact Ht |].
  exact (C2_second_invocation_overwrites e [] initial_state
           inv_off_range inv_race_course Ht).
Defined.

(** C10.  Whatever the arguments and whatever the buffer held, an
    invocation of [waste_report] answers [{"status": "success"}] and leaves
    exactly one element in [COLLECTED_TICKETS], the ticket it has just
    built; in [main.py] and in [app.py] alike. *)
Theorem C10_waste_report_answers_success i st :
  (Main.waste_report i st).2 = [("status", VAtom (AStr "success"))]
  ∧ length (COLLECTED_TICKETS (Main.waste_report i st).1) = 1
  ∧ collected (Main.waste_report i st).1 = [Main.new_ticket i]
  ∧ (App.waste_report i st).2 = [("status", VAtom (AStr "success"))]
  ∧ length (COLLECTED_TICKETS (App.waste_report i st).1) = 1
  ∧ collected (App.waste_report i st).1 = [App.new_ticket i].
Proof.
  rewrite app_waste_report_eq, waste_report_unfold. cbn [fst snd].
  repeat split; try reflexivity; apply collected_last.
Qed.

(** C3.  A call in which the model returns without invoking the tool raises
    [RuntimeError("Model did not call waste_report.")] when the buffer is
    empty at entry, as in a process that has made no call yet.  After a
    call that produced a ticket the buffer still holds it: the same silent
    model then makes [run_model] return that earlier ticket instead of
    raising. *)
Theorem C3_silent_model_after_earlier_ticket :
  reachable state_after_first_call
  ∧ trace (model second_call (Main.agent_request [])) = ([], None)
  ∧ Main.run_model second_call [] initial_state
      = (initial_state, Raise (RuntimeError "Model did not call waste_report."))
  ∧ COLLECTED_TICKETS state_after_first_call = [0]
  ∧ (Main.run_model second_call [] state_after_first_call).2
      = Return [("ticket", VRef 0)]
  ∧ objects (Main.run_model second_call [] state_after_first_call).1 !! 0
      = Some (patched_ticket inv_race_course (elapsed_of second_call)).
Proof.
  split; [apply state_after_first_call_reachable |].
  vm_compute. repeat split.
Qed.

(** What the clearing inside [waste_report] gives: after an invocation
    the buffer refers to the object just created and to nothing else, so
    an extraction call in which the model invokes the tool at least once and
    returns gives back an object created during that call and leaves every
    earlier object as it was. *)
Lemma callback_clears_buffer e image_bytes st invs :
  trace (model e (Main.agent_request image_bytes)) = (invs, None) →
  invs ≠ [] →
  (∀ j s, COLLECTED_TICKETS (Main.waste_report j s).1 = [length (objects s)])
  ∧ ∃ st' l,
      Main.run_model e image_bytes st = (st', Return [("ticket", VRef l)])
      ∧ length (objects st) ≤ l
      ∧ COLLECTED_TICKETS st' = [l]
      ∧ ∀ l', l' < length (objects st) → objects st' !! l' = objects st !! l'.
Proof.
  intros Htr Hne. split; [reflexivity |].
  destruct invs as [|i pre _] using rev_ind; [done |].
  eexists _, _. split; [apply (run_model_last e image_bytes st pre i Htr) |].
  cbn [objects COLLECTED_TICKETS]. split; [lia |]. split; [done |].
  intros l' Hl'. by rewrite lookup_app_l.
Qed.

(** C4.  [run_model] does not clear the buffer at entry; only an invocation
    of [waste_report] clears it.  The agent call of the second extraction
    call starts from the buffer that the first call left and, the model
    staying silent, leaves it so.  The second call then returns object 0,
    which the callback of the first call created, and changes it. *)
Theorem C4_buffer_survives_entry :
  reachable state_after_first_call
  ∧ COLLECTED_TICKETS state_after_first_call = [0]
  ∧ exec Main.waste_report (model second_call (Main.agent_request []))
      state_after_first_call = (state_after_first_call, None)
  ∧ objects state_after_first_call
      = [patched_ticket inv_race_course (elapsed_of first_call)]
  ∧ ∃ st2,
      Main.run_model second_call [] state_after_first_call
        = (st2, Return [("ticket", VRef 0)])
      ∧ objects st2 !! 0 ≠ objects state_after_first_call !! 0.
Proof.
  split; [apply state_after_first_call_reachable |].
  repeat split. eexists. split; [reflexivity |]. vm_compute. discriminate.
Qed.

(** C5, as stated, fails.  The arguments [off_schema] have the types of
    the signature and hold a waste type outside the declared enumeration;
    the invocation succeeds all the same, [run_model] returns the ticket
    with the value as given, and [main] writes that ticket to the output
    file. *)
Lemma C5_off_schema_ticket_is_written :
  let e := env_of (once_model inv_off_schema) 1 2 in
  schema_valid off_schema = false
  ∧ signature_typed off_schema = true
  ∧ (Main.waste_report inv_off_schema initial_state).2 = tool_success
  ∧ (Main.run_model e [] initial_state).2 = Return [("ticket", VRef 0)]
  ∧ objects (Main.run_model e [] initial_state).1 !! 0 ≫= dict_get "waste_type"
      = Some (VAtom (AStr "BANANA"))
  ∧ output_file (Main.main (Some []) e initial_state).1
      = Some (JObj [("ticket", ticket_json inv_off_schema (elapsed_of e))]).
Proof. vm_compute. repeat split. Qed.

(** C5, amended.  The functions of the repository do not check the values
    of an invocation against the enumerations of the declared schema: for
    every invocation whose values have the types of the signature, whether
    the strings of its classification fields are in the declared sets or
    not, [waste_report] answers success and stores the arguments as given,
    and [run_model] returns the ticket that holds them.  The schema is
    handed to the model library with the request, and is not used
    otherwise. *)
Theorem C5_enumerations_are_not_validated e image_bytes st i :
  signature_typed (inv_args i) = true →
  trace (model e (Main.agent_request image_bytes)) = ([i], None) →
  (Main.waste_report i st).2 = tool_success
  ∧ inputSchema <$> req_tools (Main.agent_request image_bytes)
      = [inputSchema Main.waste_report_spec]
  ∧ ∃ st' l,
      Main.run_model e image_bytes st = (st', Return [("ticket", VRef l)])
      ∧ objects st' !! l = Some (patched_ticket i (elapsed_of e))
      ∧ ∀ k v, dict_get k (kwargs (inv_args i)) = Some v →
               dict_get k (patched_ticket i (elapsed_of e)) = Some v.
Proof.
  intros _ Htr. split; [reflexivity |]. split; [reflexivity |].
  eexists _, _. split; [apply (run_model_last e image_bytes st [] i Htr) |].
  split.
  - simpl. rewrite Nat.add_0_r. by rewrite list_lookup_middle.
  - intros k v. apply dict_get_kwargs_ticket.
Qed.

Lemma C5_witness :
  let e := env_of (once_model inv_off_schema) 1 2 in
  signature_typed (inv_args inv_off_schema) = true
  ∧ trace (model e (Main.agent_request [])) = ([inv_off_schema], None)
  ∧ (Main.waste_report inv_off_schema initial_state).2 = tool_success
  ∧ inputSchema <$> req_tools (Main.agent_request [])
      = [inputSchema Main.waste_report_spec]
  ∧ ∃ st' l,
      Main.run_model e [] initial_state = (st', Return [("ticket", VRef l)])
      ∧ objects st' !! l = Some (patched_ticket inv_off_schema (elapsed_of e))
      ∧ ∀ k v, dict_get k (kwargs (inv_args inv_off_schema)) = Some v →
               dict_get k (patched_ticket inv_off_schema (elapsed_of e)) = Some v.
Proof.
  intros e.
  assert (signature_typed (inv_args inv_off_schema) = true) as Hty
    by reflexivity.
  assert (trace (model e (Main.agent_request [])) = ([inv_off_schema], None))
    as Ht by reflexivity.
  split; [exact Hty |]. split; [exact Ht |].
  exact (C5_enumerations_are_not_validated e [] initial_state inv_off_schema
           Hty Ht).
Defined.

(** C6, as stated, fails.  The arguments [off_range] conform to the declared
    schema and lie outside all three ranges; [run_model] returns the ticket
    with the latitude 1000, the longitude -500 and the weight -3. *)
Lemma C6_out_of_range_ticket_is_returned :
  let e := env_of (once_model inv_off_range) 1 2 in
  schema_valid off_range = true
  ∧ in_ranges off_range = false
  ∧ (Main.run_model e [] initial_state).2 = Return [("ticket", VRef 0)]
  ∧ objects (Main.run_model e [] initial_state).1 !! 0 ≫= dict_get "lat"
      = Some (VAtom (ANum 1000))
  ∧ objects (Main.run_model e [] initial_state).1 !! 0 ≫= dict_get "lng"
      = Some (VAtom (ANum (-500)))
  ∧ objects (Main.run_model e [] initial_state).1 !! 0
      ≫= dict_get "estimated_weight_kg" = Some (VAtom (ANum (-3))).
Proof. vm_compute. repeat split. Qed.

(** C6, amended.  The ticket that [run_model] returns holds the numbers
    that the callback received for [lat], [lng] and [estimated_weight_kg],
    whatever their magnitude and sign; the declared schema asks of these
    three fields only that they are numbers, so that its verdict does not
    change when the numbers do. *)
Theorem C6_numbers_are_stored_unchecked e image_bytes st i y x w :
  trace (model e (Main.agent_request image_bytes)) = ([i], None) →
  lat (inv_args i) = ANum y →
  lng (inv_args i) = ANum x →
  estimated_weight_kg (inv_args i) = ANum w →
  (∀ y' x' w',
     schema_valid (with_numbers y' x' w' (inv_args i)) = schema_valid (inv_args i))
  ∧ ∃ st' l t,
      Main.run_model e image_bytes st = (st', Return [("ticket", VRef l)])
      ∧ objects st' !! l = Some t
      ∧ dict_get "lat" t = Some (VAtom (ANum y))
      ∧ dict_get "lng" t = Some (VAtom (ANum x))
      ∧ dict_get "estimated_weight_kg" t = Some (VAtom (ANum w)).
Proof.
  intros Htr Hy Hx Hw. split.
  - intros y' x' w'. destruct i as [[] u n]. cbn [inv_args lat lng estimated_weight_kg] in *.
    subst. reflexivity.
  - eexists _, _, (patched_ticket i (elapsed_of e)).
    split; [apply (run_model_last e image_bytes st [] i Htr) |].
    split.
    { simpl. rewrite Nat.add_0_r. by rewrite list_lookup_middle. }
    unfold patched_ticket, Main.new_ticket. rewrite Hy, Hx, Hw. repeat split.
Qed.

Lemma C6_witness :
  let e := env_of (once_model inv_off_range) 1 2 in
  trace (model e (Main.agent_request [])) = ([inv_off_range], None)
  ∧ lat off_range = ANum 1000
  ∧ lng off_range = ANum (-500)
  ∧ estimated_weight_kg off_range = ANum (-3)
  ∧ (∀ y' x' w',
       schema_valid (with_numbers y' x' w' off_range) = schema_valid off_range)
  ∧ ∃ st' l t,
      Main.run_model e [] initial_state = (st', Return [("ticket", VRef l)])
      ∧ objects st' !! l = Some t
      ∧ dict_get "lat" t = Some (VAtom (ANum 1000))
      ∧ dict_get "lng" t = Some (VAtom (ANum (-500)))
      ∧ dict_get "estimated_weight_kg" t = Some (VAtom (ANum (-3))).
Proof.
  intros e.
  assert (trace (model e (Main.agent_request [])) = ([inv_off_range], None))
    as Ht by reflexivity.
  split; [exact Ht |]. split; [reflexivity |]. split; [reflexivity |].
  split; [reflexivity |].
  exact (C6_numbers_are_stored_unchecked e [] initial_state inv_off_range
           1000 (-500) (-3) Ht eq_refl eq_refl eq_refl).
Defined.

(** ** Serialisation of a result *)

Lemma dumps_value_atom fuel (h : list dict) (a : atom) :
  dumps_value fuel h (VAtom a) = Some (dumps_atom a).
Proof. by destruct fuel. Qed.

Lemma json_dumps_value_ticket (h : list dict) l i w :
  h !! l = Some (patched_ticket i w) →
  json_dumps_value h (VRef l) = Some (ticket_json i w).
Proof.
  intros Hl. unfold json_dumps_value. cbn [dumps_value]. rewrite Hl.
  unfold patched_ticket, Main.new_ticket. simpl.
  by rewrite !dumps_value_atom.
Qed.

Lemma json_dumps_ticket (h : list dict) l i w :
  h !! l = Some (patched_ticket i w) →
  json_dumps h [("ticket", VRef l)] = Some (JObj [("ticket", ticket_json i w)]).
Proof.
  intros Hl. unfold json_dumps. simpl.
  change (dumps_value (S (length h)) h (VRef l)) with (json_dumps_value h (VRef l)).
  by rewrite (json_dumps_value_ticket h l i w Hl).
Qed.

Lemma json_dumps_error (h : list dict) msg :
  json_dumps h [("error", VAtom (AStr msg))] = Some (JObj [("error", JStr msg)]).
Proof. reflexivity. Qed.

Lemma app_run_model_as_main e image_bytes image_format st :
  App.run_model e image_bytes image_format st =
  Main.run_model
    (answering (model e (App.agent_request image_bytes image_format)) e)
    image_bytes st.
Proof. reflexivity. Qed.

(** ** The two calling surfaces, case by case *)

Lemma main_writes_ticket e image_bytes f pre i :
  trace (model e (Main.agent_request image_bytes)) = (pre ++ [i], None) →
  ∃ st',
    Main.main (Some image_bytes) e (fresh_process f) = (st', Return ())
    ∧ output_file st' = Some (JObj [("ticket", ticket_json i (elapsed_of e))]).
Proof.
  intros Htr. unfold Main.main.
  rewrite (run_model_last e image_bytes (fresh_process f) pre i Htr).
  cbn [objects fresh_process length app Nat.add dict_get].
  rewrite decide_True by done.
  assert (((Main.new_ticket <$> pre) ++ [patched_ticket i (elapsed_of e)])
            !! length pre = Some (patched_ticket i (elapsed_of e))) as Hl.
  { rewrite <- (length_fmap Main.new_ticket pre). apply list_lookup_middle. done. }
  rewrite (json_dumps_value_ticket _ _ _ _ Hl), (json_dumps_ticket _ _ _ _ Hl).
  eexists. split; reflexivity.
Qed.

Lemma main_writes_error e image_bytes st st1 exc :
  Main.run_model e image_bytes st = (st1, Raise exc) →
  Main.main (Some image_bytes) e st
  = (write_output (JObj [("error", JStr (exn_message exc))]) st1, Return ()).
Proof. intros H. unfold Main.main. rewrite H. by rewrite json_dumps_error. Qed.

Lemma run_detection_writes_ticket e image_bytes image_format f pre i :
  trace (model e (App.agent_request image_bytes image_format)) = (pre ++ [i], None) →
  ∃ st' l,
    App.run_detection image_bytes image_format e (fresh_process f)
    = (st', App.ShowTicket (VRef l))
    ∧ output_file st' = Some (JObj [("ticket", ticket_json i (elapsed_of e))]).
Proof.
  intros Htr. unfold App.run_detection.
  rewrite app_run_model_as_main.
  rewrite (run_model_last
             (answering (model e (App.agent_request image_bytes image_format)) e)
             image_bytes (fresh_process f) pre i Htr).
  cbn [objects fresh_process length app Nat.add dict_get].
  rewrite decide_True by done.
  assert (((Main.new_ticket <$> pre) ++ [patched_ticket i (elapsed_of e)])
            !! length pre = Some (patched_ticket i (elapsed_of e))) as Hl.
  { rewrite <- (length_fmap Main.new_ticket pre). apply list_lookup_middle. done. }
  change (elapsed_of (answering _ e)) with (elapsed_of e).
  rewrite (json_dumps_ticket _ _ _ _ Hl).
  eexists _, _. split; reflexivity.
Qed.

Lemma run_detection_shows_error e image_bytes image_format st st1 exc :
  App.run_model e image_bytes image_format st = (st1, Raise exc) →
  App.run_detection image_bytes image_format e st
  = (st1, App.ShowError ("❌ Detection failed: " +:+ exn_message exc)).
Proof. intros H. unfold App.run_detection. by rewrite H. Qed.

(** C7, as stated, fails on the web surface.  When the extraction fails
    there (here: the model returns without invoking the tool), the handler
    shows the message on the page and writes nothing: the output file,
    absent before, is still absent, and holds no error object. *)
Lemma C7_web_failure_writes_no_artifact :
  let e := env_of silent_model 1 2 in
  App.run_model e [] "png" (fresh_process None)
    = (fresh_process None, Raise (RuntimeError "Model did not call waste_report."))
  ∧ App.run_detection [] "png" e (fresh_process None)
    = (fresh_process None,
       App.ShowError "❌ Detection failed: Model did not call waste_report.")
  ∧ output_file (App.run_detection [] "png" e (fresh_process None)).1 = None.
Proof. vm_compute. repeat split. Qed.

(** C7, amended.  In a process that has just loaded the module, with the
    output file holding [f]:
    - on the command line, [main] always ends normally; when [run_model]
      returns, it writes the object [{"ticket": ...}] of the last
      invocation; when [run_model] fails (the model raises, or returns
      without invoking the tool), it writes [{"error": message}] and no
      ticket;
    - on the web page, when [run_model] returns, the handler writes the
      same [{"ticket": ...}] object and shows the ticket; when [run_model]
      fails, it shows the message and leaves the output file as it was. *)
Theorem C7_output_file_per_surface e image_bytes image_format f :
  let cli := Main.main (Some image_bytes) e (fresh_process f) in
  let web := App.run_detection image_bytes image_format e (fresh_process f) in
  let tc := trace (model e (Main.agent_request image_bytes)) in
  let tw := trace (model e (App.agent_request image_bytes image_format)) in
  cli.2 = Return ()
  ∧ match tc.2, last tc.1 with
    | None, Some i =>
        output_file cli.1 = Some (JObj [("ticket", ticket_json i (elapsed_of e))])
    | None, None =>
        output_file cli.1
        = Some (JObj [("error", JStr "Model did not call waste_report.")])
    | Some exc, _ =>
        output_file cli.1 = Some (JObj [("error", JStr (exn_message exc))])
    end
  ∧ match tw.2, last tw.1 with
    | None, Some i =>
        output_file web.1 = Some (JObj [("ticket", ticket_json i (elapsed_of e))])
        ∧ ∃ l, web.2 = App.ShowTicket (VRef l)
    | None, None =>
        output_file web.1 = f
        ∧ web.2 = App.ShowError "❌ Detection failed: Model did not call waste_report."
    | Some exc, _ =>
        output_file web.1 = f
        ∧ web.2 = App.ShowError ("❌ Detection failed: " +:+ exn_message exc)
    end.
Proof.
  intros cli web tc tw.
  assert (cli.2 = Return ()
          ∧ match tc.2, last tc.1 with
            | None, Some i =>
                output_file cli.1
                = Some (JObj [("ticket", ticket_json i (elapsed_of e))])
            | None, None =>
                output_file cli.1
                = Some (JObj [("error", JStr "Model did not call waste_report.")])
            | Some exc, _ =>
                output_file cli.1 = Some (JObj [("error", JStr (exn_message exc))])
            end) as [Hret Hcli].
  { subst cli tc.
    destruct (trace (model e (Main.agent_request image_bytes)))
      as [invs [exc|]] eqn:Htr; cbn [fst snd].
    - rewrite (main_writes_error _ _ _ _ _
                 (run_model_raises e image_bytes _ invs exc Htr)). done.
    - destruct (last invs) as [i|] eqn:Hlast.
      + apply last_Some in Hlast as [pre ->].
        destruct (main_writes_ticket e image_bytes f pre i Htr) as (st' & -> & Hf).
        done.
      + apply last_None in Hlast as ->.
        rewrite (main_writes_error _ _ _ _ _
                   (run_model_no_call_empty e image_bytes (fresh_process f)
                      Htr eq_refl)). done. }
  split; [exact Hret |]. split; [exact Hcli |].
  subst web tw.
  destruct (trace (model e (App.agent_request image_bytes image_format)))
    as [invs [exc|]] eqn:Htr; cbn [fst snd].
  - rewrite (run_detection_shows_error e image_bytes image_format _
               (run_calls invs (fresh_process f)) exc).
    + split; [apply run_calls_objects | done].
    + rewrite app_run_model_as_main. by apply run_model_raises.
  - destruct (last invs) as [i|] eqn:Hlast.
    + apply last_Some in Hlast as [pre ->].
      destruct (run_detection_writes_ticket e image_bytes image_format f pre i Htr)
        as (st' & l & -> & Hf).
      split; [done | by exists l].
    + apply last_None in Hlast as ->.
      rewrite (run_detection_shows_error e image_bytes image_format _
                 (fresh_process f)
                 (RuntimeError "Model did not call waste_report.")).
      * done.
      * rewrite app_run_model_as_main. by apply run_model_no_call_empty.
Qed.

(** ** The duration patch *)

(** Within the call that creates it, the ticket is created with
    [wall_time_seconds] unset and is changed once, at that key only. *)
Lemma ticket_patch_frame i w :
  dict_get "wall_time_seconds" (Main.new_ticket i) = Some (VAtom ANone)
  ∧ dict_get "wall_time_seconds" (patched_ticket i w) = Some (VAtom (ANum w))
  ∧ (∀ k, k ≠ "wall_time_seconds" →
          dict_get k (patched_ticket i w) = dict_get k (Main.new_ticket i))
  ∧ dict_keys (patched_ticket i w) = dict_keys (Main.new_ticket i).
Proof.
  split; [reflexivity |]. split; [apply dict_get_set_eq |].
  split; [| reflexivity].
  intros k Hk. unfold patched_ticket. by rewrite dict_get_set_ne.
Qed.

(** C8.  The ticket of the first extraction call is created with
    [wall_time_seconds] unset and holds the duration of that call, 1.5,
    when the call returns.  A second call in which the model does not
    invoke the tool patches the same object again: it then holds the
    duration of the second call, 7. *)
Theorem C8_ticket_patched_by_later_call :
  reachable state_after_first_call
  ∧ dict_get "wall_time_seconds" (Main.new_ticket inv_race_course)
    = Some (VAtom ANone)
  ∧ objects state_after_first_call !! 0
    = Some (patched_ticket inv_race_course (15000 # 10000))
  ∧ trace (model second_call (Main.agent_request [])) = ([], None)
  ∧ objects (Main.run_model second_call [] state_after_first_call).1 !! 0
    = Some (patched_ticket inv_race_course (70000 # 10000))
  ∧ patched_ticket inv_race_course (15000 # 10000)
    ≠ patched_ticket inv_race_course (70000 # 10000).
Proof.
  split; [apply state_after_first_call_reachable |].
  vm_compute. repeat split. discriminate.
Qed.

(** C9.  With the format "png", the request that [run_model] of [app.py]
    builds is the request that [run_model] of [main.py] builds, and on the
    same surroundings and state the two functions give the same state and
    the same result.  "png" is the default of the format parameter.  For
    any format, the request of [app.py] is that of [main.py] but for the
    format tag of the image block. *)
Theorem C9_web_and_cli_run_model_agree e image_bytes st :
  App.agent_request image_bytes "png" = Main.agent_request image_bytes
  ∧ App.run_model e image_bytes "png" st = Main.run_model e image_bytes st
  ∧ App.waste_report = Main.waste_report
  ∧ App.default_image_format = "png"
  ∧ (∀ image_format,
       App.agent_request image_bytes image_format =
       {| req_model := req_model (Main.agent_request image_bytes);
          req_tools := req_tools (Main.agent_request image_bytes);
          req_system_prompt := req_system_prompt (Main.agent_request image_bytes);
          req_prompt := [TextBlock Main.NOVA_USER;
                         ImageBlock image_format image_bytes] |})
  ∧ App.agent_request image_bytes "jpeg" ≠ Main.agent_request image_bytes.
Proof.
  repeat split. intros H. discriminate H.
Qed.

(** * Further properties of the code *)

(** ** Text operations *)

Lemma lstrip_app_space ws s :
  Forall (λ c, is_space c = true) ws → lstrip (ws ++ s) = lstrip s.
Proof. induction 1 as [|c ws Hc _ IH]; simpl; [done | by rewrite Hc]. Qed.

Lemma lstrip_head c s : is_space c = false → lstrip (c :: s) = c :: s.
Proof. intros H. simpl. by rewrite H. Qed.

Lemma lstrip_idemp s : lstrip (lstrip s) = lstrip s.
Proof.
  induction s as [|c s IH]; [done |]. simpl.
  destruct (is_space c) eqn:Hc; [done |]. simpl. by rewrite Hc.
Qed.

(** Left stripping stops at the first character that is not a space and
    keeps all that follows. *)
Lemma lstrip_keep ws c s :
  is_space c = false → ∃ ws', lstrip (ws ++ c :: s) = ws' ++ c :: s.
Proof.
  intros Hc. induction ws as [|a ws [ws' IH]]; simpl.
  - exists []. by rewrite Hc.
  - destruct (is_space a); [by exists ws' | by exists (a :: ws)].
Qed.

Lemma rstrip_keep s c rest :
  is_space c = false → ∃ rest', rstrip (s ++ c :: rest) = s ++ c :: rest'.
Proof.
  intros Hc. unfold rstrip.
  rewrite reverse_app, reverse_cons, <- app_assoc. simpl.
  destruct (lstrip_keep (reverse rest) c (reverse s) Hc) as [ws' ->].
  exists (reverse ws').
  by rewrite reverse_app, reverse_cons, reverse_involutive, <- app_assoc.
Qed.

Lemma rstrip_idemp s : rstrip (rstrip s) = rstrip s.
Proof. unfold rstrip. by rewrite reverse_involutive, lstrip_idemp. Qed.

Lemma lstrip_shape s :
  lstrip s = [] ∨ ∃ c s', lstrip s = c :: s' ∧ is_space c = false.
Proof.
  induction s as [|c s IH]; simpl; [by left |].
  destruct (is_space c) eqn:Hc; [done | right; eauto].
Qed.

Lemma strip_idemp s : strip (strip s) = strip s.
Proof.
  unfold strip. destruct (lstrip_shape s) as [-> | (c & s' & -> & Hc)]; [done |].
  destruct (rstrip_keep [] c s' Hc) as [r Hr]. simpl in Hr. rewrite Hr.
  rewrite lstrip_head by done. by rewrite <- Hr, rstrip_idemp.
Qed.

Lemma startswith_app p s : startswith p (p ++ s) = true.
Proof. induction p as [|a p IH]; simpl; [done |]. by rewrite bool_decide_eq_true_2. Qed.

Lemma startswith_true p s : startswith p s = true → ∃ r, s = p ++ r.
Proof.
  revert s. induction p as [|a p IH]; intros s H; [by exists s |].
  destruct s as [|b s]; [done |]. simpl in H.
  apply andb_true_iff in H as [Hab Hp]. apply bool_decide_eq_true in Hab as ->.
  destruct (IH s Hp) as [r ->]. by exists r.
Qed.

Lemma startswith_head_ne a p b s : a ≠ b → startswith (a :: p) (b :: s) = false.
Proof. intros H. simpl. by rewrite bool_decide_eq_false_2. Qed.

(** ** The scan of [split] *)

Lemma split_go_skip sep s k cur :
  k ≤ length s → split_go sep s k cur = split_go sep (drop k s) 0 cur.
Proof.
  revert k. induction s as [|c s IH]; intros k Hk.
  - simpl in Hk. by replace k with 0 by lia.
  - destruct k as [|k]; [done |]. simpl in *. apply IH. lia.
Qed.

Lemma split_go_nil sep cur : split_go sep [] 0 cur = [reverse cur].
Proof. done. Qed.

(** A stretch without the first character of the separator is read into
    the current piece. *)
Lemma split_go_free c0 sep q r cur :
  Forall (λ c, c ≠ c0) q →
  split_go (c0 :: sep) (q ++ r) 0 cur
  = split_go (c0 :: sep) r 0 (reverse q ++ cur).
Proof.
  intros Hq. revert cur. induction Hq as [|c q Hc _ IH]; intros cur; [done |].
  cbn [app split_go]. rewrite startswith_head_ne by done.
  rewrite IH, reverse_cons, <- app_assoc. done.
Qed.

(** A separator closes the current piece. *)
Lemma split_go_sep c0 sep r cur :
  split_go (c0 :: sep) ((c0 :: sep) ++ r) 0 cur
  = reverse cur :: split_go (c0 :: sep) r 0 [].
Proof.
  cbn [app split_go].
  change (c0 :: sep ++ r) with ((c0 :: sep) ++ r). rewrite startswith_app.
  f_equal. replace (length (c0 :: sep) - 1) with (length sep) by (simpl; lia).
  rewrite split_go_skip by (rewrite length_app; lia).
  by rewrite drop_app_length.
Qed.

Lemma split_go_nonempty sep s k cur : ∃ x xs, split_go sep s k cur = x :: xs.
Proof.
  revert k cur. induction s as [|c s IH]; intros k cur; [by eexists _, _ |].
  destruct k as [|k]; cbn [split_go]; [| apply IH].
  destruct (startswith sep (c :: s)); [by eexists _, _ | apply IH].
Qed.

(** Splitting a text without the separator's first character gives the
    text itself. *)
Lemma split_go_whole c0 sep q :
  Forall (λ c, c ≠ c0) q → split_go (c0 :: sep) q 0 [] = [q].
Proof.
  intros Hq. rewrite <- (app_nil_r q) at 1.
  rewrite split_go_free by done. simpl.
  by rewrite app_nil_r, reverse_involutive.
Qed.

(** ** The fence removal of [analyze] *)

Lemma fence_unfold : Nova.fence = [96; 96; 96]%N.
Proof. reflexivity. Qed.

Lemma split_fence_leading r :
  ∃ x xs, split Nova.fence (Nova.fence ++ r) = Return ([] :: x :: xs).
Proof.
  rewrite fence_unfold. unfold split.
  rewrite (split_go_sep 96%N [96; 96]%N r []).
  destruct (split_go_nonempty [96; 96; 96]%N r 0 []) as (x & xs & ->).
  by exists x, xs.
Qed.

Lemma strip_code_fences_never_fails_aux raw_text :
  ∃ u, Nova.strip_code_fences raw_text = Return u.
Proof.
  unfold Nova.strip_code_fences.
  destruct (startswith Nova.fence (strip raw_text)) eqn:Hf.
  - apply startswith_true in Hf as [r ->].
    destruct (split_fence_leading r) as (x & xs & ->). simpl. by eexists.
  - simpl. by eexists.
Qed.

(** X1.  The fence removal never fails, whatever the answer of the model: the
    index 1 that follows the split exists whenever it is asked for.  Its
    result has no white space left at either end. *)
Theorem strip_code_fences_never_fails raw_text :
  ∃ u, Nova.strip_code_fences raw_text = Return u ∧ strip u = u.
Proof.
  unfold Nova.strip_code_fences.
  destruct (startswith Nova.fence (strip raw_text)) eqn:Hf.
  - apply startswith_true in Hf as [r ->].
    destruct (split_fence_leading r) as (x & xs & ->). simpl.
    eexists. split; [reflexivity | apply strip_idemp].
  - simpl. eexists. split; [reflexivity | apply strip_idemp].
Qed.

(** X2.  An answer that, once stripped, does not begin with a fence goes to the
    parser with nothing removed but the white space at its two ends,
    fenced blocks further inside included. *)
Theorem strip_code_fences_without_leading_fence raw_text :
  startswith Nova.fence (strip raw_text) = false →
  Nova.strip_code_fences raw_text = Return (strip raw_text).
Proof.
  intros Hf. unfold Nova.strip_code_fences. rewrite Hf. simpl.
  by rewrite strip_idemp.
Qed.

Lemma strip_code_fences_without_leading_fence_witness :
  let raw := txt "Here it is: ```json {} ``` " in
  startswith Nova.fence (strip raw) = false
  ∧ Nova.strip_code_fences raw = Return (strip raw).
Proof.
  intros raw.
  assert (startswith Nova.fence (strip raw) = false) as H
    by (vm_compute; reflexivity).
  split; [exact H |].
  exact (strip_code_fences_without_leading_fence raw H).
Defined.

Lemma strip_leading_fence ws q rest :
  Forall (λ c, is_space c = true) ws →
  ∃ rest',
    strip (ws ++ Nova.fence ++ q ++ Nova.fence ++ rest)
    = Nova.fence ++ q ++ Nova.fence ++ rest'.
Proof.
  intros Hws. unfold strip. rewrite lstrip_app_space by done.
  rewrite fence_unfold.
  change ([96; 96; 96]%N ++ q ++ [96; 96; 96]%N ++ rest)
    with (96%N :: [96; 96]%N ++ q ++ [96; 96; 96]%N ++ rest).
  rewrite lstrip_head by done.
  destruct (rstrip_keep ([96; 96; 96]%N ++ q ++ [96; 96]%N) 96%N rest eq_refl)
    as [rest' Hr].
  exists rest'.
  replace (96%N :: [96; 96]%N ++ q ++ [96; 96; 96]%N ++ rest)
    with (([96; 96; 96]%N ++ q ++ [96; 96]%N) ++ 96%N :: rest)
    by (simpl; by rewrite <- !app_assoc).
  rewrite Hr. simpl. by rewrite <- !app_assoc.
Qed.

(** X3.  An answer that begins, after white space, with a fenced block gives the
    content of that block: what lies between the first fence and the next
    one, less a leading "json", stripped.  What follows the closing fence
    is dropped.  The content is any text free of backticks. *)
Theorem strip_code_fences_fenced_block ws q rest :
  Forall (λ c, is_space c = true) ws →
  Forall (λ c, c ≠ 96%N) q →
  Nova.strip_code_fences (ws ++ Nova.fence ++ q ++ Nova.fence ++ rest)
  = Return (strip (if startswith (txt "json") q then drop 4 q else q)).
Proof.
  intros Hws Hq. unfold Nova.strip_code_fences.
  destruct (strip_leading_fence ws q rest Hws) as [rest' ->].
  rewrite startswith_app. rewrite fence_unfold. unfold split.
  rewrite (split_go_sep 96%N [96; 96]%N).
  rewrite (split_go_free 96%N [96; 96]%N q _ [] Hq).
  rewrite (split_go_sep 96%N [96; 96]%N).
  rewrite app_nil_r, reverse_involutive.
  reflexivity.
Qed.

Lemma strip_code_fences_fenced_block_witness :
  let ws := [10; 32]%N in
  let q := txt "json" ++ [10]%N ++ txt "{}" ++ [10]%N in
  let rest := txt " Hope this helps." in
  Forall (λ c, is_space c = true) ws
  ∧ Forall (λ c, c ≠ 96%N) q
  ∧ Nova.strip_code_fences (ws ++ Nova.fence ++ q ++ Nova.fence ++ rest)
    = Return (strip (if startswith (txt "json") q then drop 4 q else q))
  ∧ strip (if startswith (txt "json") q then drop 4 q else q) = txt "{}".
Proof.
  intros ws q rest.
  assert (Forall (λ c, is_space c = true) ws) as Hws
    by (repeat constructor).
  assert (Forall (λ c, c ≠ 96%N) q) as Hq
    by (vm_compute; repeat constructor; discriminate).
  split; [exact Hws |]. split; [exact Hq |].
  split; [exact (strip_code_fences_fenced_block ws q rest Hws Hq) |].
  vm_compute. reflexivity.
Defined.

(** ** [load_image] and the format tag *)

(** Membership in a list that is written out. *)
Ltac in_list := rewrite !elem_of_cons; auto 12.

(** One step of a computation that may raise, in a hypothesis. *)
Ltac run_result H :=
  repeat (progress (cbn [mbind result_bind] in H; unfold mret, result_ret in H)).

Lemma mime_map_range ext :
  get_default ext Nova.mime_map (txt "image/jpeg")
  ∈ [txt "image/jpeg"; txt "image/png"; txt "image/webp"; txt "image/gif"].
Proof.
  unfold Nova.mime_map. cbn [get_default].
  repeat case_decide; in_list.
Qed.

Lemma format_of_mapped m :
  m ∈ [txt "image/jpeg"; txt "image/png"; txt "image/webp"; txt "image/gif"] →
  ∃ fmt, Nova.format_of m = Return fmt ∧ fmt ∈ Nova.accepted_formats.
Proof.
  intros H. unfold Nova.accepted_formats.
  repeat (apply elem_of_cons in H as [-> | H]);
    [exists (txt "jpeg") | exists (txt "png") | exists (txt "webp")
     | exists (txt "gif") | by apply elem_of_nil in H];
    (split; [vm_compute; reflexivity | in_list]).
Qed.

(** The two stages of [load_image], read off a run that returns. *)
Lemma load_image_returns {image} (w : Nova.world image) src b m img :
  Nova.load_image w src = Return (b, m, img) →
  ∃ b0 m0,
    (if Nova.is_url src
     then ∃ r parts,
            Nova.requests_get w src = Return r ∧ b0 = Nova.content r
            ∧ split (txt ";") (default (txt "image/jpeg") (Nova.content_type r))
              = Return parts
            ∧ index parts 0 = Return m0
     else Nova.read_file w src = Return b0
          ∧ m0 = get_default (Nova.suffix_lower w src) Nova.mime_map
                   (txt "image/jpeg"))
    ∧ Nova.image_open w b0 = Return img
    ∧ (if bool_decide (Nova.suffix_lower w src ∈ Nova.reencoded)
       then Nova.save_jpeg w img = Return b ∧ m = txt "image/jpeg"
       else b = b0 ∧ m = m0).
Proof.
  unfold Nova.load_image. intros H.
  destruct (Nova.is_url src).
  - destruct (Nova.requests_get w src) as [r|] eqn:Hr; run_result H; [| done].
    destruct (split (txt ";") _) as [parts|] eqn:Hs; run_result H; [| done].
    destruct (index parts 0) as [m0|] eqn:Hi; run_result H; [| done].
    destruct (Nova.image_open w (Nova.content r)) as [img'|] eqn:Ho;
      run_result H; [| done].
    exists (Nova.content r), m0.
    split; [by exists r, parts |].
    destruct (bool_decide _); run_result H.
    + destruct (Nova.save_jpeg w img') as [b'|] eqn:Hj; run_result H; [| done].
      by simplify_eq.
    + by simplify_eq.
  - destruct (Nova.read_file w src) as [b0|] eqn:Hr; run_result H; [| done].
    destruct (Nova.image_open w b0) as [img'|] eqn:Ho; run_result H; [| done].
    eexists b0, _. split; [done |].
    destruct (bool_decide _); run_result H.
    + destruct (Nova.save_jpeg w img') as [b'|] eqn:Hj; run_result H; [| done].
      by simplify_eq.
    + by simplify_eq.
Qed.

(** X4.  For a local file, whatever its suffix, the format tag that [analyze]
    derives from the MIME type of [load_image] is one of the four that the
    model accepts. *)
Theorem load_image_local_format_is_accepted
    {image} (w : Nova.world image) src b m img :
  Nova.is_url src = false →
  Nova.load_image w src = Return (b, m, img) →
  ∃ fmt, Nova.format_of m = Return fmt ∧ fmt ∈ Nova.accepted_formats.
Proof.
  intros Hurl H. apply load_image_returns in H as (b0 & m0 & H1 & _ & H2).
  rewrite Hurl in H1. destruct H1 as [_ ->].
  apply format_of_mapped.
  destruct (bool_decide _); destruct H2 as [_ ->];
    [in_list | apply mime_map_range].
Qed.

Lemma load_image_local_format_is_accepted_witness :
  Nova.is_url (txt "street.heic") = false
  ∧ Nova.load_image sample_world (txt "street.heic")
    = Return ([Byte.x03; Byte.x04], txt "image/jpeg", [Byte.x03; Byte.x04])
  ∧ ∃ fmt, Nova.format_of (txt "image/jpeg") = Return fmt
           ∧ fmt ∈ Nova.accepted_formats.
Proof.
  assert (Nova.is_url (txt "street.heic") = false) as Hu by reflexivity.
  assert (Nova.load_image sample_world (txt "street.heic")
          = Return ([Byte.x03; Byte.x04], txt "image/jpeg", [Byte.x03; Byte.x04]))
    as Hl by (vm_compute; reflexivity).
  split; [exact Hu |]. split; [exact Hl |].
  exact (load_image_local_format_is_accepted sample_world _ _ _ _ Hu Hl).
Defined.

(** X5.  When the suffix is one of ".avif", ".tiff", ".bmp", for a file and for
    a URL alike, the bytes returned are the JPEG re-encoding of the decoded
    picture and the MIME type is "image/jpeg", whatever the suffix table or
    the server said. *)
Theorem load_image_reencodes {image} (w : Nova.world image) src b m img :
  Nova.suffix_lower w src ∈ Nova.reencoded →
  Nova.load_image w src = Return (b, m, img) →
  Nova.save_jpeg w img = Return b
  ∧ m = txt "image/jpeg"
  ∧ Nova.format_of m = Return (txt "jpeg").
Proof.
  intros Hs H. apply load_image_returns in H as (b0 & m0 & _ & _ & H2).
  rewrite bool_decide_eq_true_2 in H2 by done. destruct H2 as [? ->].
  done.
Qed.

Lemma load_image_reencodes_witness :
  let src := txt "https://example.org/beach.avif" in
  Nova.suffix_lower sample_world src ∈ Nova.reencoded
  ∧ Nova.load_image sample_world src
    = Return ([Byte.xff; Byte.x01; Byte.x02], txt "image/jpeg",
              [Byte.x01; Byte.x02])
  ∧ Nova.save_jpeg sample_world [Byte.x01; Byte.x02]
    = Return [Byte.xff; Byte.x01; Byte.x02]
  ∧ txt "image/jpeg" = txt "image/jpeg"
  ∧ Nova.format_of (txt "image/jpeg") = Return (txt "jpeg").
Proof.
  intros src.
  assert (Nova.suffix_lower sample_world src ∈ Nova.reencoded) as Hs
    by (vm_compute; constructor).
  assert (Nova.load_image sample_world src
          = Return ([Byte.xff; Byte.x01; Byte.x02], txt "image/jpeg",
                    [Byte.x01; Byte.x02])) as Hl by (vm_compute; reflexivity).
  split; [exact Hs |]. split; [exact Hl |].
  exact (load_image_reencodes sample_world src _ _ _ Hs Hl).
Defined.

(** X6.  A local file whose suffix is neither in the suffix table nor among the
    re-encoded ones is returned with its bytes as read and with the MIME
    type "image/jpeg". *)
Theorem load_image_unknown_suffix {image} (w : Nova.world image) src b m img :
  Nova.is_url src = false →
  Nova.suffix_lower w src ∉ (Nova.mime_map.*1) →
  Nova.suffix_lower w src ∉ Nova.reencoded →
  Nova.load_image w src = Return (b, m, img) →
  Nova.read_file w src = Return b
  ∧ Nova.image_open w b = Return img
  ∧ m = txt "image/jpeg".
Proof.
  intros Hurl Hmap Hre H.
  apply load_image_returns in H as (b0 & m0 & H1 & Ho & H2).
  rewrite Hurl in H1. destruct H1 as [Hr ->].
  rewrite bool_decide_eq_false_2 in H2 by done. destruct H2 as [-> ->].
  split; [done |]. split; [done |].
  unfold Nova.mime_map in *. cbn [get_default fmap list_fmap fst] in *.
  repeat case_decide; try done; exfalso; apply Hmap; in_list.
Qed.

Lemma load_image_unknown_suffix_witness :
  let src := txt "street.heic" in
  Nova.is_url src = false
  ∧ (Nova.suffix_lower sample_world src ∉ (Nova.mime_map.*1))
  ∧ (Nova.suffix_lower sample_world src ∉ Nova.reencoded)
  ∧ Nova.load_image sample_world src
    = Return ([Byte.x03; Byte.x04], txt "image/jpeg", [Byte.x03; Byte.x04])
  ∧ Nova.read_file sample_world src = Return [Byte.x03; Byte.x04]
  ∧ Nova.image_open sample_world [Byte.x03; Byte.x04]
    = Return [Byte.x03; Byte.x04]
  ∧ txt "image/jpeg" = txt "image/jpeg".
Proof.
  intros src.
  assert (Nova.is_url src = false) as Hu by reflexivity.
  assert (Nova.suffix_lower sample_world src ∉ (Nova.mime_map.*1)) as Hm
    by (apply (bool_decide_unpack _); vm_compute; exact I).
  assert (Nova.suffix_lower sample_world src ∉ Nova.reencoded) as Hr
    by (apply (bool_decide_unpack _); vm_compute; exact I).
  assert (Nova.load_image sample_world src
          = Return ([Byte.x03; Byte.x04], txt "image/jpeg", [Byte.x03; Byte.x04]))
    as Hl by (vm_compute; reflexivity).
  split; [exact Hu |]. split; [exact Hm |]. split; [exact Hr |].
  split; [exact Hl |].
  exact (load_image_unknown_suffix sample_world src _ _ _ Hu Hm Hr Hl).
Defined.

(** The last piece of a split at a one-character separator is what follows
    the last separator. *)
Lemma split_go_last c t sub cur :
  Forall (λ x, x ≠ c) sub →
  last (split_go [c] (t ++ c :: sub) 0 cur) = Some sub.
Proof.
  intros Hsub. revert cur. induction t as [|a t IH]; intros cur.
  - change ([] ++ c :: sub) with ([c] ++ sub).
    rewrite (split_go_sep c [] sub cur), (split_go_whole c [] sub Hsub). done.
  - cbn [app split_go startswith].
    destruct (bool_decide (c = a)); cbn [andb length Nat.sub].
    + destruct (split_go_nonempty [c] (t ++ c :: sub) 0 []) as (x & xs & Hx).
      specialize (IH []). rewrite Hx in IH |- *. by rewrite last_cons, IH.
    + apply IH.
Qed.

Lemma format_of_subtype type sub :
  Forall (λ c, c ≠ 47%N) sub →
  Nova.format_of (type ++ 47%N :: sub) = Return sub.
Proof.
  intros Hsub. unfold Nova.format_of, split, index_last.
  change (txt "/") with [47%N]. cbn [mbind result_bind].
  by rewrite split_go_last.
Qed.

Lemma split_semicolon_head m0 tail :
  Forall (λ c, c ≠ 59%N) m0 →
  tail = [] ∨ (∃ params, tail = 59%N :: params) →
  ∃ rest, split (txt ";") (m0 ++ tail) = Return (m0 :: rest).
Proof.
  intros Hm [-> | [params ->]]; unfold split; change (txt ";") with [59%N].
  - rewrite app_nil_r, split_go_whole by done. by exists [].
  - rewrite (split_go_free 59%N [] m0 _ [] Hm).
    change (59%N :: params) with ([59%N] ++ params).
    rewrite (split_go_sep 59%N [] params).
    rewrite app_nil_r, reverse_involutive. by eexists.
Qed.

(** X7.  For a URL whose suffix is not re-encoded, the MIME type is the
    [Content-Type] of the answer up to its first ";" ("image/jpeg" when the
    header is absent), the bytes are the body as received, and the format
    tag of [analyze] is the part of that MIME type after its last "/".  No
    step compares it with the formats that the model accepts. *)
Theorem load_image_url_format
    {image} (w : Nova.world image) src r type sub tail img :
  Nova.is_url src = true →
  Nova.requests_get w src = Return r →
  default (txt "image/jpeg") (Nova.content_type r) = (type ++ 47%N :: sub) ++ tail →
  Forall (λ c, c ≠ 59%N) type →
  Forall (λ c, c ≠ 59%N ∧ c ≠ 47%N) sub →
  tail = [] ∨ (∃ params, tail = 59%N :: params) →
  Nova.suffix_lower w src ∉ Nova.reencoded →
  Nova.image_open w (Nova.content r) = Return img →
  Nova.load_image w src = Return (Nova.content r, type ++ 47%N :: sub, img)
  ∧ Nova.format_of (type ++ 47%N :: sub) = Return sub.
Proof.
  intros Hurl Hreq Hct Htype Hsub Htail Hsuf Hopen.
  split.
  - unfold Nova.load_image. rewrite Hurl, Hreq. cbn [mbind result_bind].
    rewrite Hct.
    destruct (split_semicolon_head (type ++ 47%N :: sub) tail) as [rest ->];
      [| done |].
    { apply Forall_app. split; [done |]. constructor; [done |].
      eapply Forall_impl; [exact Hsub |]. by intros c [? _]. }
    cbn [mbind result_bind index lookup list_lookup]. unfold mret, result_ret.
    cbn [mbind result_bind]. rewrite Hopen. cbn [mbind result_bind].
    rewrite bool_decide_eq_false_2 by done. done.
  - apply format_of_subtype. eapply Forall_impl; [exact Hsub |]. by intros c [_ ?].
Qed.

Lemma load_image_url_format_witness :
  let src := txt "https://example.org/beach" in
  let r := {| Nova.content := [Byte.x05];
              Nova.content_type := Some (txt "image/png; charset=binary") |} in
  Nova.is_url src = true
  ∧ Nova.requests_get sample_world src = Return r
  ∧ default (txt "image/jpeg") (Nova.content_type r)
    = (txt "image" ++ 47%N :: txt "png") ++ txt "; charset=binary"
  ∧ Forall (λ c, c ≠ 59%N) (txt "image")
  ∧ Forall (λ c, c ≠ 59%N ∧ c ≠ 47%N) (txt "png")
  ∧ (txt "; charset=binary" = []
     ∨ ∃ params, txt "; charset=binary" = 59%N :: params)
  ∧ (Nova.suffix_lower sample_world src ∉ Nova.reencoded)
  ∧ Nova.image_open sample_world (Nova.content r) = Return [Byte.x05]
  ∧ Nova.load_image sample_world src
    = Return (Nova.content r, txt "image" ++ 47%N :: txt "png", [Byte.x05])
  ∧ Nova.format_of (txt "image" ++ 47%N :: txt "png") = Return (txt "png").
Proof.
  intros src r.
  assert (Nova.is_url src = true) as H1 by reflexivity.
  assert (Nova.requests_get sample_world src = Return r) as H2
    by (vm_compute; reflexivity).
  assert (default (txt "image/jpeg") (Nova.content_type r)
          = (txt "image" ++ 47%N :: txt "png") ++ txt "; charset=binary") as H3
    by reflexivity.
  assert (Forall (λ c, c ≠ 59%N) (txt "image")) as H4
    by (vm_compute; repeat constructor; discriminate).
  assert (Forall (λ c, c ≠ 59%N ∧ c ≠ 47%N) (txt "png")) as H5
    by (vm_compute; repeat constructor; discriminate).
  assert (txt "; charset=binary" = []
          ∨ ∃ params, txt "; charset=binary" = 59%N :: params) as H6
    by (right; eexists; reflexivity).
  assert (Nova.suffix_lower sample_world src ∉ Nova.reencoded) as H7
    by (apply (bool_decide_unpack _); vm_compute; exact I).
  assert (Nova.image_open sample_world (Nova.content r) = Return [Byte.x05])
    as H8 by reflexivity.
  repeat (split; [assumption |]).
  exact (load_image_url_format sample_world src r (txt "image") (txt "png")
           (txt "; charset=binary") [Byte.x05] H1 H2 H3 H4 H5 H6 H7 H8).
Defined.

(** ** What a process holds, and what [main] can do with it *)

Lemma patched_again i w w' :
  dict_set "wall_time_seconds" (VAtom (ANum w)) (patched_ticket i w')
  = patched_ticket i w.
Proof. vm_compute. reflexivity. Qed.

Lemma is_ticket_patch d w :
  is_ticket d → is_ticket (dict_set "wall_time_seconds" (VAtom (ANum w)) d).
Proof.
  intros [i [-> | [w' ->]]]; exists i; right; exists w;
    [reflexivity | apply patched_again].
Qed.

Lemma tickets_run_calls invs st :
  Forall is_ticket (objects st) → Forall is_ticket (objects (run_calls invs st)).
Proof.
  intros Hst. destruct (run_calls_objects invs st) as [-> _].
  apply Forall_app. split; [done |].
  apply Forall_fmap, Forall_true. intros i. exists i. by left.
Qed.

Lemma tickets_run_model e image_bytes st :
  Forall is_ticket (objects st) →
  Forall is_ticket (objects (Main.run_model e image_bytes st).1).
Proof.
  intros Hst. rewrite run_model_unfold. cbn zeta.
  pose proof (tickets_run_calls
                (trace (model e (Main.agent_request image_bytes))).1 st Hst) as H1.
  destruct (trace (model e (Main.agent_request image_bytes))).2; [done |].
  destruct (COLLECTED_TICKETS (run_calls _ st)) as [|l ls]; [done |].
  cbn [fst setitem objects].
  apply Forall_alter; [done |]. intros d _ Hd. by apply is_ticket_patch.
Qed.

Lemma tickets_main image_file e st :
  Forall is_ticket (objects st) →
  Forall is_ticket (objects (Main.main image_file e st).1).
Proof.
  intros Hst. unfold Main.main. destruct image_file as [image_bytes|]; [| done].
  pose proof (tickets_run_model e image_bytes st Hst) as H1.
  destruct (Main.run_model e image_bytes st) as [st1 r]. cbn [fst] in H1.
  match goal with |- Forall _ (objects (match ?j with _ => _ end).1) =>
    destruct j; done end.
Qed.

Lemma reachable_tickets st : reachable st → Forall is_ticket (objects st).
Proof.
  induction 1 as [f | e image_bytes st _ IH | image_file e st _ IH].
  - constructor.
  - by apply tickets_run_model.
  - by apply tickets_main.
Qed.

(** X11.  In every state that a process can reach through [run_model] and
    [main], [COLLECTED_TICKETS] is empty or holds exactly one reference, to
    an object that exists, and that object is a ticket built by
    [waste_report], with [wall_time_seconds] unset or patched. *)
Theorem reachable_buffer_invariant st :
  reachable st →
  single_slot st
  ∧ (collected st = [] ∨ ∃ d, collected st = [d] ∧ is_ticket d).
Proof.
  intros H. pose proof (reachable_single_slot st H) as Hs.
  split; [exact Hs |].
  destruct Hs as [Hb | (l & Hb & Hl)]; unfold collected; rewrite Hb;
    [by left | right].
  assert (is_Some (objects st !! l)) as [d Hd]
    by (by apply lookup_lt_is_Some_2).
  exists d. split.
  { change (omap (λ l0 : loc, objects st !! l0) [l])
      with (from_option (λ x, [x]) [] (objects st !! l)). by rewrite Hd. }
  pose proof (reachable_tickets st H) as Ht.
  eapply Forall_forall in Ht; [exact Ht |]. by eapply list_elem_of_lookup_2.
Qed.

Lemma reachable_buffer_invariant_witness :
  reachable state_after_first_call
  ∧ single_slot state_after_first_call
  ∧ (collected state_after_first_call = []
     ∨ ∃ d, collected state_after_first_call = [d] ∧ is_ticket d).
Proof.
  split; [exact state_after_first_call_reachable |].
  exact (reachable_buffer_invariant state_after_first_call
           state_after_first_call_reachable).
Defined.

(** X12.  Whatever the model does and whatever state the call starts from,
    [run_model] does not touch the output file, removes no dict object,
    and changes an existing object at no key other than
    [wall_time_seconds]. *)
Theorem run_model_frame e image_bytes st :
  let st' := (Main.run_model e image_bytes st).1 in
  output_file st' = output_file st
  ∧ length (objects st) ≤ length (objects st')
  ∧ ∀ l d, objects st !! l = Some d →
      ∃ d', objects st' !! l = Some d'
            ∧ ∀ k, k ≠ "wall_time_seconds" → dict_get k d' = dict_get k d.
Proof.
  cbn zeta. rewrite run_model_unfold. cbn zeta.
  set (invs := (trace (model e (Main.agent_request image_bytes))).1).
  destruct (run_calls_objects invs st) as [Ho Hf].
  assert (∀ l d, objects st !! l = Some d →
                 objects (run_calls invs st) !! l = Some d) as Hkeep.
  { intros l d Hl. rewrite Ho. by apply lookup_app_l_Some. }
  assert (length (objects st) ≤ length (objects (run_calls invs st))) as Hlen.
  { rewrite Ho, length_app. lia. }
  destruct (trace (model e (Main.agent_request image_bytes))).2.
  { cbn [fst]. split; [done |]. split; [done |]. intros l d Hl.
    exists d. split; [by apply Hkeep | done]. }
  destruct (COLLECTED_TICKETS (run_calls invs st)) as [|l0 ls].
  { cbn [fst]. split; [done |]. split; [done |]. intros l d Hl.
    exists d. split; [by apply Hkeep | done]. }
  cbn [fst setitem objects output_file]. split; [done |].
  split; [by rewrite length_alter |].
  intros l d Hl. apply Hkeep in Hl.
  destruct (decide (l0 = l)) as [-> | Hne].
  - eexists. rewrite list_lookup_alter_eq, Hl. split; [reflexivity |].
    intros k Hk. by apply dict_get_set_ne.
  - exists d. by rewrite list_lookup_alter_ne.
Qed.

Lemma run_model_return_shape e image_bytes st st1 result :
  Main.run_model e image_bytes st = (st1, Return result) →
  ∃ l ls, result = [("ticket", VRef l)] ∧ COLLECTED_TICKETS st1 = l :: ls.
Proof.
  rewrite run_model_unfold. cbn zeta.
  destruct (trace (model e (Main.agent_request image_bytes))).2; [done |].
  destruct (COLLECTED_TICKETS (run_calls _ st)) as [|l ls] eqn:Hb; [done |].
  intros H. simplify_eq. by exists l, ls.
Qed.

Lemma json_dumps_any_ticket (h : list dict) l d :
  h !! l = Some d → is_ticket d →
  ∃ fields,
    fields.*1 = dict_keys d
    ∧ length fields = 14
    ∧ json_dumps_value h (VRef l) = Some (JObj fields)
    ∧ json_dumps h [("ticket", VRef l)] = Some (JObj [("ticket", JObj fields)]).
Proof.
  intros Hl [i [-> | [w ->]]].
  - eexists. split; [| split; [| split]].
    3:{ unfold json_dumps_value. cbn [dumps_value]. rewrite Hl.
        unfold Main.new_ticket. simpl. rewrite !dumps_value_atom. reflexivity. }
    + reflexivity.
    + reflexivity.
    + unfold json_dumps. simpl.
      change (dumps_value (S (length h)) h (VRef l))
        with (json_dumps_value h (VRef l)).
      unfold json_dumps_value. cbn [dumps_value]. rewrite Hl.
      unfold Main.new_ticket. simpl. rewrite !dumps_value_atom. reflexivity.
  - exists (match ticket_json i w with JObj fs => fs | _ => [] end).
    split; [reflexivity |]. split; [reflexivity |].
    split; [apply (json_dumps_value_ticket h l i w Hl)
           | apply (json_dumps_ticket h l i w Hl)].
Qed.

(** X13.  From any state that a process can reach, what [run_model] returns
    can always be serialised: the result is [{"ticket": t}] with [t] an
    object that exists, and [json.dumps] of [t] and of the result, the two
    calls that [main] makes on it, give an object of the fourteen ticket
    fields and that object under the single key "ticket".  Neither call
    fails, also when the ticket is one left by an earlier call. *)
Theorem run_model_result_serialises st e image_bytes st1 result :
  reachable st →
  Main.run_model e image_bytes st = (st1, Return result) →
  ∃ l t fields,
    result = [("ticket", VRef l)]
    ∧ objects st1 !! l = Some t
    ∧ fields.*1 = dict_keys t
    ∧ length fields = 14
    ∧ json_dumps_value (objects st1) (VRef l) = Some (JObj fields)
    ∧ json_dumps (objects st1) result = Some (JObj [("ticket", JObj fields)]).
Proof.
  intros Hst Hrun.
  pose proof (reach_run_model e image_bytes st Hst) as Hr1.
  rewrite Hrun in Hr1. cbn [fst] in Hr1.
  destruct (run_model_return_shape _ _ _ _ _ Hrun) as (l & ls & -> & Hb).
  destruct (reachable_single_slot st1 Hr1) as [Hs | (l' & Hs & Hl')];
    rewrite Hs in Hb; simplify_eq.
  destruct (lookup_lt_is_Some_2 (objects st1) l Hl') as [d Hd].
  pose proof (reachable_tickets st1 Hr1) as Ht.
  assert (is_ticket d) as Hdt.
  { eapply Forall_forall in Ht; [exact Ht |]. by eapply list_elem_of_lookup_2. }
  destruct (json_dumps_any_ticket _ _ _ Hd Hdt) as (fields & Hk & Hlen & Hv & Hj).
  by exists l, d, fields.
Qed.

Lemma run_model_result_serialises_witness :
  let st1 := (Main.run_model second_call [] state_after_first_call).1 in
  let result := [("ticket", VRef 0)] in
  reachable state_after_first_call
  ∧ Main.run_model second_call [] state_after_first_call = (st1, Return result)
  ∧ ∃ l t fields,
      result = [("ticket", VRef l)]
      ∧ objects st1 !! l = Some t
      ∧ fields.*1 = dict_keys t
      ∧ length fields = 14
      ∧ json_dumps_value (objects st1) (VRef l) = Some (JObj fields)
      ∧ json_dumps (objects st1) result = Some (JObj [("ticket", JObj fields)]).
Proof.
  intros st1 result.
  assert (Main.run_model second_call [] state_after_first_call
          = (st1, Return result)) as Hrun by (vm_compute; reflexivity).
  split; [exact state_after_first_call_reachable |]. split; [exact Hrun |].
  exact (run_model_result_serialises state_after_first_call second_call []
           st1 result state_after_first_call_reachable Hrun).
Defined.

(** ** [analyze] *)

Lemma field_get_set_eq k v fs : Nova.field_get k (Nova.field_set k v fs) = Some v.
Proof.
  induction fs as [|[k' v'] fs IH]; simpl.
  - by rewrite decide_True.
  - destruct (decide (k = k')) as [->|Hne]; simpl.
    + by rewrite decide_True.
    + by rewrite decide_False.
Qed.

Lemma field_get_set_ne k k' v fs :
  k ≠ k' → Nova.field_get k' (Nova.field_set k v fs) = Nova.field_get k' fs.
Proof.
  intros Hne. induction fs as [|[k0 v0] fs IH]; simpl.
  - rewrite decide_False; [done | congruence].
  - destruct (decide (k = k0)) as [->|Hk]; simpl.
    + rewrite !decide_False; [done | congruence | congruence].
    + destruct (decide (k' = k0)); [done | apply IH].
Qed.

(** X9.  When the picture loads, the service answers with a first block of text
    and the stripped text parses to a JSON object, [analyze] returns that
    object with three keys set by the client: "image_source", "model_used"
    and "tokens_used" (the two counters of the answer, 0 for a counter
    that is absent).  A key of one of these names in the model's own JSON
    is overwritten; every other key is kept as parsed. *)
Theorem analyze_annotates_parsed_object
    {image} (w : Nova.world image) (s : Nova.service)
    src b m img resp t more fs0 :
  Nova.load_image w src = Return (b, m, img) →
  (∀ rq, Nova.image_bytes rq = b → Nova.converse s rq = Return resp) →
  Nova.blocks resp = Some t :: more →
  (∀ raw, Nova.strip_code_fences t = Return raw →
          Nova.json_loads s raw = Return (Nova.JVobj fs0)) →
  ∃ fs,
    Nova.analyze w s src = Return (Nova.JVobj fs)
    ∧ Nova.field_get (txt "image_source") fs = Some (Nova.JVstr src)
    ∧ Nova.field_get (txt "model_used") fs
      = Some (Nova.JVstr (txt Nova.MODEL_ID))
    ∧ Nova.field_get (txt "tokens_used") fs
      = Some (Nova.JVobj
                [ (txt "input",
                   default (Nova.JVint 0) (default (None, None) (Nova.usage resp)).1);
                  (txt "output",
                   default (Nova.JVint 0) (default (None, None) (Nova.usage resp)).2) ])
    ∧ ∀ k, k ∉ [txt "image_source"; txt "model_used"; txt "tokens_used"] →
           Nova.field_get k fs = Nova.field_get k fs0.
Proof.
  intros Hload Hconv Hblocks Hparse.
  destruct (strip_code_fences_never_fails_aux t) as [raw Hraw].
  assert (∃ fmt, Nova.format_of m = Return fmt) as [fmt Hfmt].
  { unfold Nova.format_of, split, index_last. change (txt "/") with [47%N].
    cbn [mbind result_bind].
    destruct (split_go_nonempty [47%N] m 0 []) as (x & xs & ->).
    destruct (last (x :: xs)) eqn:Hl; [by eexists |].
    by apply last_None in Hl. }
  eexists. split.
  - unfold Nova.analyze. rewrite Hload. cbn [mbind result_bind].
    rewrite Hfmt. cbn [mbind result_bind].
    rewrite Hconv by reflexivity. cbn [mbind result_bind].
    rewrite Hblocks. cbn [index lookup list_lookup mbind result_bind].
    rewrite Hraw. cbn [mbind result_bind].
    rewrite (Hparse raw Hraw). cbn [mbind result_bind Nova.item_set].
    reflexivity.
  - split; [| split; [| split]].
    + rewrite !field_get_set_ne by (vm_compute; discriminate).
      apply field_get_set_eq.
    + rewrite field_get_set_ne by (vm_compute; discriminate).
      apply field_get_set_eq.
    + apply field_get_set_eq.
    + intros k Hk. apply not_elem_of_cons in Hk as [H1 Hk].
      apply not_elem_of_cons in Hk as [H2 Hk].
      apply not_elem_of_cons in Hk as [H3 _].
      by rewrite !field_get_set_ne.
Qed.

Lemma analyze_annotates_parsed_object_witness :
  let src := txt "street.heic" in
  let b := [Byte.x03; Byte.x04] in
  let resp := {| Nova.blocks := [Some (txt "```json{}```")];
                 Nova.usage := None |} in
  let fs0 := [ (txt "model_used", Nova.JVstr (txt "gpt"));
               (txt "summary", Nova.JVstr (txt "clean")) ] in
  Nova.load_image sample_world src = Return (b, txt "image/jpeg", b)
  ∧ (∀ rq, Nova.image_bytes rq = b → Nova.converse sample_service rq = Return resp)
  ∧ Nova.blocks resp = Some (txt "```json{}```") :: []
  ∧ (∀ raw, Nova.strip_code_fences (txt "```json{}```") = Return raw →
            Nova.json_loads sample_service raw = Return (Nova.JVobj fs0))
  ∧ ∃ fs,
      Nova.analyze sample_world sample_service src = Return (Nova.JVobj fs)
      ∧ Nova.field_get (txt "image_source") fs = Some (Nova.JVstr src)
      ∧ Nova.field_get (txt "model_used") fs
        = Some (Nova.JVstr (txt Nova.MODEL_ID))
      ∧ Nova.field_get (txt "tokens_used") fs
        = Some (Nova.JVobj
                  [ (txt "input",
                     default (Nova.JVint 0)
                       (default (None, None) (Nova.usage resp)).1);
                    (txt "output",
                     default (Nova.JVint 0)
                       (default (None, None) (Nova.usage resp)).2) ])
      ∧ ∀ k, k ∉ [txt "image_source"; txt "model_used"; txt "tokens_used"] →
             Nova.field_get k fs = Nova.field_get k fs0.
Proof.
  intros src b resp fs0.
  assert (Nova.load_image sample_world src = Return (b, txt "image/jpeg", b))
    as H1 by (vm_compute; reflexivity).
  assert (∀ rq, Nova.image_bytes rq = b →
                Nova.converse sample_service rq = Return resp) as H2
    by (intros rq _; reflexivity).
  assert (Nova.blocks resp = Some (txt "```json{}```") :: []) as H3
    by reflexivity.
  assert (∀ raw, Nova.strip_code_fences (txt "```json{}```") = Return raw →
                 Nova.json_loads sample_service raw = Return (Nova.JVobj fs0))
    as H4.
  { intros raw Hraw. vm_compute in Hraw. injection Hraw as <-.
    vm_compute. reflexivity. }
  split; [exact H1 |]. split; [exact H2 |]. split; [exact H3 |].
  split; [exact H4 |].
  exact (analyze_annotates_parsed_object sample_world sample_service src b
           (txt "image/jpeg") b resp (txt "```json{}```") [] fs0 H1 H2 H3 H4).
Defined.

(** X10.  [analyze] returns only when the parsed answer is a JSON object: for an
    array, a string, a number, a boolean or null the first assignment
    [result["image_source"] = ...] raises a [TypeError]. *)
Theorem analyze_rejects_non_object
    {image} (w : Nova.world image) (s : Nova.service)
    src b m img resp t more parsed :
  Nova.load_image w src = Return (b, m, img) →
  (∀ rq, Nova.image_bytes rq = b → Nova.converse s rq = Return resp) →
  Nova.blocks resp = Some t :: more →
  (∀ raw, Nova.strip_code_fences t = Return raw →
          Nova.json_loads s raw = Return parsed) →
  (∀ fs, parsed ≠ Nova.JVobj fs) →
  ∃ msg, Nova.analyze w s src = Raise (Nova.TypeError msg).
Proof.
  intros Hload Hconv Hblocks Hparse Hobj.
  destruct (strip_code_fences_never_fails_aux t) as [raw Hraw].
  assert (∃ fmt, Nova.format_of m = Return fmt) as [fmt Hfmt].
  { unfold Nova.format_of, split, index_last. change (txt "/") with [47%N].
    cbn [mbind result_bind].
    destruct (split_go_nonempty [47%N] m 0 []) as (x & xs & ->).
    destruct (last (x :: xs)) eqn:Hl; [by eexists |].
    by apply last_None in Hl. }
  unfold Nova.analyze. rewrite Hload. cbn [mbind result_bind].
  rewrite Hfmt. cbn [mbind result_bind].
  rewrite Hconv by reflexivity. cbn [mbind result_bind].
  rewrite Hblocks. cbn [index lookup list_lookup mbind result_bind].
  rewrite Hraw. cbn [mbind result_bind].
  rewrite (Hparse raw Hraw). cbn [mbind result_bind].
  destruct parsed; cbn [Nova.item_set mbind result_bind]; try by eexists.
  by destruct (Hobj fields).
Qed.

Lemma analyze_rejects_non_object_witness :
  let src := txt "street.heic" in
  let b := [Byte.x03; Byte.x04] in
  let resp := {| Nova.blocks := [Some (txt "[]")]; Nova.usage := None |} in
  let s := {| Nova.GARBAGE_SYSTEM_PROMPT := [];
              Nova.converse := λ _, Return resp;
              Nova.json_loads := λ _, Return (Nova.JVarr []) |} in
  Nova.load_image sample_world src = Return (b, txt "image/jpeg", b)
  ∧ (∀ rq, Nova.image_bytes rq = b → Nova.converse s rq = Return resp)
  ∧ Nova.blocks resp = Some (txt "[]") :: []
  ∧ (∀ raw, Nova.strip_code_fences (txt "[]") = Return raw →
            Nova.json_loads s raw = Return (Nova.JVarr []))
  ∧ (∀ fs, Nova.JVarr [] ≠ Nova.JVobj fs)
  ∧ ∃ msg, Nova.analyze sample_world s src = Raise (Nova.TypeError msg).
Proof.
  intros src b resp s.
  assert (Nova.load_image sample_world src = Return (b, txt "image/jpeg", b))
    as H1 by (vm_compute; reflexivity).
  assert (∀ rq, Nova.image_bytes rq = b → Nova.converse s rq = Return resp)
    as H2 by (intros rq _; reflexivity).
  assert (Nova.blocks resp = Some (txt "[]") :: []) as H3 by reflexivity.
  assert (∀ raw, Nova.strip_code_fences (txt "[]") = Return raw →
                 Nova.json_loads s raw = Return (Nova.JVarr [])) as H4
    by (intros raw _; reflexivity).
  assert (∀ fs, Nova.JVarr [] ≠ Nova.JVobj fs) as H5 by (intros fs; discriminate).
  split; [exact H1 |]. split; [exact H2 |]. split; [exact H3 |].
  split; [exact H4 |]. split; [exact H5 |].
  exact (analyze_rejects_non_object sample_world s src b (txt "image/jpeg") b
           resp (txt "[]") [] (Nova.JVarr []) H1 H2 H3 H4 H5).
Defined.

(** ** Failures *)

(** X8.  [load_image] raises only what one of its four outside steps raises
    (the download, the read, the decoding, the re-encoding): its own
    handling of the header and of the suffix never fails. *)
Theorem load_image_raises_only_outside {image} (w : Nova.world image) src exc :
  Nova.load_image w src = Raise exc →
  Nova.requests_get w src = Raise exc
  ∨ Nova.read_file w src = Raise exc
  ∨ (∃ b, Nova.image_open w b = Raise exc)
  ∨ (∃ img, Nova.save_jpeg w img = Raise exc).
Proof.
  unfold Nova.load_image. intros H.
  assert (∀ b0 (m0 : text),
    (Nova.image_open w b0 ≫= λ pil_image,
       (if bool_decide (Nova.suffix_lower w src ∈ Nova.reencoded)
        then Nova.save_jpeg w pil_image ≫= λ b1, mret (b1, txt "image/jpeg")
        else mret (b0, m0)) ≫= λ '(b1, m1), mret (b1, m1, pil_image))
    = Raise exc →
    (∃ b, Nova.image_open w b = Raise exc)
    ∨ (∃ img, Nova.save_jpeg w img = Raise exc)) as Htail.
  { intros b0 m0 Ht.
    destruct (Nova.image_open w b0) as [img|e] eqn:Ho; run_result Ht.
    - destruct (bool_decide _); run_result Ht; [| done].
      destruct (Nova.save_jpeg w img) as [b1|e] eqn:Hj; run_result Ht; [done |].
      right. exists img. by simplify_eq.
    - left. exists b0. by simplify_eq. }
  destruct (Nova.is_url src).
  - destruct (Nova.requests_get w src) as [r|e] eqn:Hr; run_result H;
      [| left; by simplify_eq].
    unfold split in H. change (txt ";") with [59%N] in H.
    destruct (split_go_nonempty [59%N]
                (default (txt "image/jpeg") (Nova.content_type r)) 0 [])
      as (x & xs & Hx).
    rewrite Hx in H. cbn [index lookup list_lookup] in H. run_result H.
    right. right. by apply (Htail (Nova.content r) x).
  - destruct (Nova.read_file w src) as [b0|e] eqn:Hr; run_result H;
      [| right; left; by simplify_eq].
    right. right. by eapply Htail.
Qed.

Lemma load_image_raises_only_outside_witness :
  let src := txt "missing.png" in
  let exc := FileNotFoundError "No such file or directory" in
  Nova.load_image sample_world src = Raise exc
  ∧ (Nova.requests_get sample_world src = Raise exc
     ∨ Nova.read_file sample_world src = Raise exc
     ∨ (∃ b, Nova.image_open sample_world b = Raise exc)
     ∨ (∃ img, Nova.save_jpeg sample_world img = Raise exc)).
Proof.
  intros src exc.
  assert (Nova.load_image sample_world src = Raise exc) as H
    by (vm_compute; reflexivity).
  split; [exact H |].
  exact (load_image_raises_only_outside sample_world src exc H).
Defined.

(** X14.  When the agent call raises, [run_model] raises the same exception and
    patches nothing: a ticket that the tool built during the failed call
    stays in the buffer with [wall_time_seconds] unset, and the output
    file is as before. *)
Theorem run_model_passes_failure_on e image_bytes st pre i exc :
  trace (model e (Main.agent_request image_bytes)) = (pre ++ [i], Some exc) →
  ∃ st',
    Main.run_model e image_bytes st = (st', Raise exc)
    ∧ collected st' = [Main.new_ticket i]
    ∧ output_file st' = output_file st.
Proof.
  intros Htr. eexists. split; [by apply run_model_raises |].
  rewrite run_calls_snoc. split; [| done].
  rewrite app_assoc.
  replace (length (objects st) + length pre)
    with (length (objects st ++ (Main.new_ticket <$> pre)))
    by (rewrite length_app, length_fmap; lia).
  apply collected_last.
Qed.

Lemma run_model_passes_failure_on_witness :
  let exc := {| exn_class := "EventLoopException"; exn_message := "timeout" |} in
  let e := env_of (λ _, Invoke inv_race_course (λ _, Fail exc)) 1 2 in
  trace (model e (Main.agent_request [])) = ([] ++ [inv_race_course], Some exc)
  ∧ ∃ st',
      Main.run_model e [] initial_state = (st', Raise exc)
      ∧ collected st' = [Main.new_ticket inv_race_course]
      ∧ output_file st' = output_file initial_state.
Proof.
  intros exc e.
  assert (trace (model e (Main.agent_request []))
          = ([] ++ [inv_race_course], Some exc)) as H by reflexivity.
  split; [exact H |].
  exact (run_model_passes_failure_on e [] initial_state [] inv_race_course exc H).
Defined.

(** X15.  However many times the model invokes the tool before it returns, the
    ticket of the last invocation is the one that [run_model] patches and
    returns, and the only one the buffer refers to; the tickets of the
    earlier invocations stay behind as objects with [wall_time_seconds]
    unset. *)
Theorem run_model_last_of_many e image_bytes st pre i :
  trace (model e (Main.agent_request image_bytes)) = (pre ++ [i], None) →
  ∃ st' l,
    Main.run_model e image_bytes st = (st', Return [("ticket", VRef l)])
    ∧ objects st' !! l = Some (patched_ticket i (elapsed_of e))
    ∧ collected st' = [patched_ticket i (elapsed_of e)]
    ∧ ∀ n j, pre !! n = Some j →
        objects st' !! (length (objects st) + n) = Some (Main.new_ticket j).
Proof.
  intros Htr. eexists _, _.
  split; [apply (run_model_last e image_bytes st pre i Htr) |].
  cbn [objects].
  assert (length (objects st) + length pre
          = length (objects st ++ (Main.new_ticket <$> pre))) as Hlen
    by (rewrite length_app, length_fmap; lia).
  split; [| split].
  - rewrite app_assoc, Hlen. by apply list_lookup_middle.
  - rewrite app_assoc, Hlen. apply collected_last.
  - intros n j Hn. rewrite lookup_app_r by lia.
    replace (length (objects st) + n - length (objects st)) with n by lia.
    apply lookup_app_l_Some. by rewrite list_lookup_fmap, Hn.
Qed.

Lemma run_model_last_of_many_witness :
  let e := env_of (twice_model inv_off_range inv_race_course) 1 (25 # 10) in
  trace (model e (Main.agent_request []))
    = ([inv_off_range] ++ [inv_race_course], None)
  ∧ ∃ st' l,
      Main.run_model e [] initial_state = (st', Return [("ticket", VRef l)])
      ∧ objects st' !! l = Some (patched_ticket inv_race_course (elapsed_of e))
      ∧ collected st' = [patched_ticket inv_race_course (elapsed_of e)]
      ∧ ∀ n j, [inv_off_range] !! n = Some j →
          objects st' !! (length (objects initial_state) + n)
          = Some (Main.new_ticket j).
Proof.
  intros e.
  assert (trace (model e (Main.agent_request []))
          = ([inv_off_range] ++ [inv_race_course], None)) as H by reflexivity.
  split; [exact H |].
  exact (run_model_last_of_many e [] initial_state [inv_off_range]
           inv_race_course H).
Defined.
